(** * MX Local DNS manager: the logic layer ([logic.py]) and the
      relational lookups and mutation handlers of the page ([web.py])

    The Python code is embedded shallowly.  JSON-like Python values are
    the inductive type [pyval]; a Python call either returns or raises
    ([outcome]); code that touches the process state (the API call
    counter, the log, the [st.cache_data] store, the remote service
    behind the Meraki SDK, the widgets of the page) is a function from
    [state] to an outcome and a new state. *)

From Stdlib Require Import String List ZArith Bool Lia.
Import ListNotations.
Local Open Scope string_scope.
Local Open Scope list_scope.
Local Open Scope Z_scope.

(** ** Python values *)

Set Warnings "-register-all".

(** The values that travel between the SDK, the logic layer and the
    page: what [json] decoding produces, without floats. *)
Inductive pyval : Type :=
| PNone
| PBool (b : bool)
| PInt (n : Z)
| PStr (s : string)
| PList (xs : list pyval)
| PDict (kvs : list (string * pyval)).

(** Structural equality of values, as decided by a hash of type and
    content (the key of [st.cache_data]). *)
Fixpoint pyval_eqb (a b : pyval) {struct a} : bool :=
  match a, b with
  | PNone, PNone => true
  | PBool x, PBool y => Bool.eqb x y
  | PInt x, PInt y => Z.eqb x y
  | PStr x, PStr y => String.eqb x y
  | PList xs, PList ys =>
      (fix go (l1 l2 : list pyval) {struct l1} : bool :=
         match l1, l2 with
         | [], [] => true
         | x :: l1', y :: l2' => pyval_eqb x y && go l1' l2'
         | _, _ => false
         end) xs ys
  | PDict xs, PDict ys =>
      (fix go (l1 l2 : list (string * pyval)) {struct l1} : bool :=
         match l1, l2 with
         | [], [] => true
         | (k, x) :: l1', (k', y) :: l2' =>
             String.eqb k k' && pyval_eqb x y && go l1' l2'
         | _, _ => false
         end) xs ys
  | _, _ => false
  end.

Fixpoint args_eqb (l1 l2 : list pyval) : bool :=
  match l1, l2 with
  | [], [] => true
  | x :: l1', y :: l2' => pyval_eqb x y && args_eqb l1' l2'
  | _, _ => false
  end.

(** A dict literal or JSON object keeps its keys in insertion order. *)
Fixpoint dict_lookup {A : Type} (k : string) (d : list (string * A)) : option A :=
  match d with
  | [] => None
  | (k', v) :: d' => if String.eqb k k' then Some v else dict_lookup k d'
  end.

(** ** Exceptions and outcomes *)

(** [APIError str_e] is [meraki.APIError]; the code only ever looks at
    [str(e)], which is what the constructor carries.  Every other
    exception class is [Exception cls]. *)
Inductive exn : Type :=
| APIError (str_e : string)
| Exception (cls : string).

Inductive outcome (A : Type) : Type :=
| Return (a : A)
| Raise (e : exn).
Arguments Return {A} a.
Arguments Raise {A} e.

Definition returns {A : Type} (o : outcome A) : Prop :=
  exists a, o = Return a.

(** ** Stateful code: state passing with exceptions *)

Definition M (S A : Type) : Type := S -> outcome A * S.

Definition ret {S A : Type} (a : A) : M S A := fun s => (Return a, s).

Definition raise {S A : Type} (e : exn) : M S A := fun s => (Raise e, s).

Definition bind {S A B : Type} (c : M S A) (k : A -> M S B) : M S B :=
  fun s =>
    match c s with
    | (Return a, s') => k a s'
    | (Raise e, s') => (Raise e, s')
    end.

Definition lift {S A : Type} (o : outcome A) : M S A := fun s => (o, s).

(** [try: body / except meraki.APIError as e: handler]: only the SDK's
    own error class is handled, anything else keeps propagating. *)
Definition try_except_APIError {S A : Type}
    (body : M S A) (handler : string -> M S A) : M S A :=
  fun s =>
    match body s with
    | (Raise (APIError str_e), s') => handler str_e s'
    | r => r
    end.

Notation "x <- c1 ;; c2" := (bind c1 (fun x => c2))
  (at level 61, c1 at next level, right associativity).
Notation "c1 ;; c2" := (bind c1 (fun _ => c2))
  (at level 61, right associativity).

(** ** Exception-passing pure code *)

Definition obind {A B : Type} (o : outcome A) (k : A -> outcome B) : outcome B :=
  match o with
  | Return a => k a
  | Raise e => Raise e
  end.

Notation "'let*' x ':=' c1 'in' c2" := (obind c1 (fun x => c2))
  (at level 61, x name, c1 at next level, right associativity).

(** ** Operators and method calls on values *)

(** [obj.get(key, default)]: a dict method; any other value of this
    model has no [get] attribute. *)
Definition py_get (obj : pyval) (key : string) (default : pyval) : outcome pyval :=
  match obj with
  | PDict d =>
      Return (match dict_lookup key d with Some v => v | None => default end)
  | _ => Raise (Exception "AttributeError")
  end.

(** [obj[key]] with a string key. *)
Definition py_subscript (obj : pyval) (key : string) : outcome pyval :=
  match obj with
  | PDict d =>
      match dict_lookup key d with
      | Some v => Return v
      | None => Raise (Exception "KeyError")
      end
  | _ => Raise (Exception "TypeError")
  end.

(** Truth value of an object in [if], [not], [and], [or]. *)
Definition truthy (v : pyval) : bool :=
  match v with
  | PNone => false
  | PBool b => b
  | PInt n => negb (n =? 0)
  | PStr s => negb (String.eqb s "")
  | PList xs => match xs with [] => false | _ => true end
  | PDict kvs => match kvs with [] => false | _ => true end
  end.

Definition is_substring (needle hay : string) : bool :=
  match String.index 0 needle hay with
  | Some _ => true
  | None => false
  end.

(** [key in obj] with a string key: a key of a dict, an element of a
    list, a substring of a string; the other values are not iterable. *)
Definition py_in (key : string) (obj : pyval) : outcome bool :=
  match obj with
  | PDict d =>
      Return (match dict_lookup key d with Some _ => true | None => false end)
  | PList xs => Return (existsb (pyval_eqb (PStr key)) xs)
  | PStr s => Return (is_substring key s)
  | _ => Raise (Exception "TypeError")
  end.

(** [for x in obj]: the elements of a list, the keys of a dict, the
    characters of a string. *)
Definition py_iter (obj : pyval) : outcome (list pyval) :=
  match obj with
  | PList xs => Return xs
  | PDict d => Return (map (fun kv => PStr (fst kv)) d)
  | PStr s =>
      Return (map (fun c => PStr (String c EmptyString)) (list_ascii_of_string s))
  | _ => Raise (Exception "TypeError")
  end.

(** *** Dicts built by the page, keyed by values

    Keys are compared with [==] on hashable values, where [True == 1]
    and [False == 0]; lists and dicts cannot be keys. *)
Definition hashable (v : pyval) : bool :=
  match v with
  | PList _ | PDict _ => false
  | _ => true
  end.

Definition key_eqb (a b : pyval) : bool :=
  match a, b with
  | PNone, PNone => true
  | PBool x, PBool y => Bool.eqb x y
  | PInt x, PInt y => x =? y
  | PBool x, PInt y => Z.b2z x =? y
  | PInt x, PBool y => x =? Z.b2z y
  | PStr x, PStr y => String.eqb x y
  | _, _ => false
  end.

Definition pydict : Type := list (pyval * pyval).

Fixpoint pydict_find (d : pydict) (k : pyval) : option pyval :=
  match d with
  | [] => None
  | (k', v) :: d' => if key_eqb k k' then Some v else pydict_find d' k
  end.

(** [d[k] = v] on hashed keys: an equal key keeps its place and gets the
    new value, a new key goes last. *)
Fixpoint pydict_store (d : pydict) (k v : pyval) : pydict :=
  match d with
  | [] => [(k, v)]
  | (k', v') :: d' =>
      if key_eqb k k' then (k', v) :: d' else (k', v') :: pydict_store d' k v
  end.

Definition pydict_setitem (d : pydict) (k v : pyval) : outcome pydict :=
  if hashable k then Return (pydict_store d k v)
  else Raise (Exception "TypeError").

(** [d.get(k, default)] *)
Definition pydict_get (d : pydict) (k default : pyval) : outcome pyval :=
  if hashable k
  then Return (match pydict_find d k with Some v => v | None => default end)
  else Raise (Exception "TypeError").

(** *** web.py: relational lookups *)

(** [{x[key_field]: x[value_field] for x in coll}], one item after the
    other: key expression, value expression, then the store. *)
Fixpoint comprehension_loop (key_field value_field : string)
    (items : list pyval) (acc : pydict) : outcome pydict :=
  match items with
  | [] => Return acc
  | x :: rest =>
      let* k := py_subscript x key_field in
      let* v := py_subscript x value_field in
      let* acc' := pydict_setitem acc k v in
      comprehension_loop key_field value_field rest acc'
  end.

Definition dict_comprehension (key_field value_field : string)
    (coll : pyval) : outcome pydict :=
  let* items := py_iter coll in
  comprehension_loop key_field value_field items [].

(** DNS Records mode, per row: [pid] and [pname]. *)
Definition record_profile (prof_lookup : pydict) (r : pyval)
    : outcome (pyval * pyval) :=
  let* profile := py_get r "profile" (PDict []) in
  let* pid := py_get profile "id" (PStr "N/A") in
  let* pname := pydict_get prof_lookup pid (PStr "Unknown") in
  Return (pname, pid).

(** Network Assignments mode, per row: [(n_name, n_id)] and
    [(p_name, p_id)]. *)
Definition assignment_names (net_lookup prof_lookup : pydict) (a : pyval)
    : outcome ((pyval * pyval) * (pyval * pyval)) :=
  let* network := py_get a "network" (PDict []) in
  let* n_id := py_get network "id" PNone in
  let* profile := py_get a "profile" (PDict []) in
  let* p_id := py_get profile "id" PNone in
  let* n_name := pydict_get net_lookup n_id (PStr "Unknown") in
  let* p_name := pydict_get prof_lookup p_id (PStr "Unknown") in
  Return ((n_name, n_id), (p_name, p_id)).

(** *** web.py: the success tests of the button handlers *)

(** [not res or "error" not in res], the test after every delete. *)
Definition delete_test (res : pyval) : outcome bool :=
  if negb (truthy res) then Return true
  else let* b := py_in "error" res in Return (negb b).

(** [res and "error" not in res], the test after every create: a falsy
    [res] is the value of the whole expression. *)
Definition create_test (res : pyval) : outcome bool :=
  if truthy res
  then let* b := py_in "error" res in Return (negb b)
  else Return false.

(** ** Process state *)

Inductive log_record : Type :=
| INFO_api_call (n : nat) (endpoint : string)
| ERROR_sdk (method : string) (str_e : string).

(** What the page does to the browser. *)
Inductive toast : Type :=
| ToastProfileDeleted
| ToastProfileCreated (name : pyval)
| ToastError (detail : pyval)
| ToastEnterProfileName.

Inductive ui_event : Type :=
| Toast (t : toast)
| SessionStateDel (key : string)
| Sleep (seconds : Z)
| Rerun.

(** An SDK call as it leaves the process: the dotted method name and the
    positional arguments. *)
Definition sdk_call : Type := (string * list pyval)%type.

(** An entry of the [st.cache_data] store: the function, the hashed
    arguments, the stored value and the time it was stored at. *)
Record cache_entry : Type := mkEntry
  { entry_func : string;
    entry_args : list pyval;
    entry_value : pyval;
    entry_stored : Z }.

Section Process.

(** The remote service: [W] is whatever state the cloud keeps, [remote]
    answers one SDK call. *)
Variable W : Type.
Variable remote : string -> list pyval -> W -> outcome pyval * W.

Record state : Type := mkState
  { API_CALL_COUNTER : nat;
    log : list log_record;
    cache : list cache_entry;
    clock : Z;
    world : W;
    sent : list sdk_call;
    ui : list ui_event }.

Definition with_clock (t : Z) (s : state) : state :=
  mkState (API_CALL_COUNTER s) (log s) (cache s) t (world s) (sent s) (ui s).

(** [logger.info] / [logger.error]. *)
Definition logger (r : log_record) : M state unit :=
  fun s =>
    (Return tt,
     mkState (API_CALL_COUNTER s) (log s ++ [r]) (cache s) (clock s)
             (world s) (sent s) (ui s)).

(** A method call on [self.dashboard]: the call is recorded in [sent]
    and answered by the remote service. *)
Definition dashboard (endpoint : string) (args : list pyval) : M state pyval :=
  fun s =>
    let (o, w') := remote endpoint args (world s) in
    (o,
     mkState (API_CALL_COUNTER s) (log s) (cache s) (clock s)
             w' (sent s ++ [(endpoint, args)]) (ui s)).

(** *** logic.py *)

Definition _increment_counter (endpoint : string) : M state unit :=
  fun s =>
    let n := S (API_CALL_COUNTER s) in
    logger (INFO_api_call n endpoint)
      (mkState n (log s) (cache s) (clock s) (world s) (sent s) (ui s)).

Definition CACHE_CONFIG : list (string * Z) :=
  [("short", 300); ("medium", 3600); ("long", 86400)].

(** **** The [st.cache_data(ttl=...)] decorator

    A call is looked up under the decorated function and its hashed
    arguments (a parameter whose name starts with an underscore, here
    [_self], is left out of the key).  An entry stored less than [ttl]
    seconds ago is returned without running the body; otherwise the
    body runs and its return value replaces the entry.  A body that
    raises stores nothing. *)
Fixpoint cache_lookup (func : string) (args : list pyval)
    (c : list cache_entry) : option cache_entry :=
  match c with
  | [] => None
  | e :: c' =>
      if String.eqb func (entry_func e) && args_eqb args (entry_args e)
      then Some e
      else cache_lookup func args c'
  end.

Fixpoint cache_store (e : cache_entry) (c : list cache_entry) : list cache_entry :=
  match c with
  | [] => [e]
  | e' :: c' =>
      if String.eqb (entry_func e) (entry_func e')
         && args_eqb (entry_args e) (entry_args e')
      then e :: c'
      else e' :: cache_store e c'
  end.

Definition cache_miss (func : string) (args : list pyval)
    (body : M state pyval) : M state pyval :=
  fun s =>
    match body s with
    | (Return v, s') =>
        (Return v,
         mkState (API_CALL_COUNTER s') (log s')
                 (cache_store (mkEntry func args v (clock s')) (cache s'))
                 (clock s') (world s') (sent s') (ui s'))
    | r => r
    end.

Definition cache_data (ttl : Z) (func : string) (args : list pyval)
    (body : M state pyval) : M state pyval :=
  fun s =>
    match cache_lookup func args (cache s) with
    | Some e =>
        if clock s <? entry_stored e + ttl
        then (Return (entry_value e), s)
        else cache_miss func args body s
    | None => cache_miss func args body s
    end.

(** [CACHE_CONFIG[name]], evaluated when the class body is. *)
Definition cached (name : string) (func : string) (args : list pyval)
    (body : M state pyval) : M state pyval :=
  match dict_lookup name CACHE_CONFIG with
  | Some ttl => cache_data ttl func args body
  | None => raise (Exception "KeyError")
  end.

Definition get_organizations : M state pyval :=
  cached "long" "ProjectLogic.get_organizations" []
    (_increment_counter "organizations.getOrganizations" ;;
     dashboard "organizations.getOrganizations" []).

Definition get_networks (organization_id : pyval) : M state pyval :=
  cached "medium" "ProjectLogic.get_networks" [organization_id]
    (_increment_counter "organizations.getOrganizationNetworks" ;;
     dashboard "organizations.getOrganizationNetworks" [organization_id]).

Definition list_profiles (org_id : pyval) : M state pyval :=
  _increment_counter "appliance.getOrganizationApplianceDnsLocalProfiles" ;;
  try_except_APIError
    (response <- dashboard "appliance.getOrganizationApplianceDnsLocalProfiles"
                   [org_id] ;;
     lift (py_get response "items" (PList [])))
    (fun str_e =>
       logger (ERROR_sdk "list_profiles" str_e) ;;
       ret (PList [])).

Definition create_profile (org_id name : pyval) : M state pyval :=
  _increment_counter "appliance.createOrganizationApplianceDnsLocalProfile" ;;
  try_except_APIError
    (dashboard "appliance.createOrganizationApplianceDnsLocalProfile"
       [org_id; name])
    (fun str_e =>
       logger (ERROR_sdk "create_profile" str_e) ;;
       ret (PDict [("error", PStr str_e)])).

Definition list_dns_records (org_id : pyval) : M state pyval :=
  _increment_counter "appliance.getOrganizationApplianceDnsLocalRecords" ;;
  try_except_APIError
    (response <- dashboard "appliance.getOrganizationApplianceDnsLocalRecords"
                   [org_id] ;;
     lift (py_get response "items" (PList [])))
    (fun str_e =>
       logger (ERROR_sdk "list_dns_records" str_e) ;;
       ret (PList [])).

Definition create_dns_record (org_id profile_id hostname address : pyval)
    : M state pyval :=
  _increment_counter "appliance.createOrganizationApplianceDnsLocalRecord" ;;
  try_except_APIError
    (let profile := PDict [("id", profile_id)] in
     dashboard "appliance.createOrganizationApplianceDnsLocalRecord"
       [org_id; hostname; address; profile])
    (fun str_e =>
       logger (ERROR_sdk "create_dns_record" str_e) ;;
       ret (PDict [("error", PStr str_e)])).

Definition list_assignments (org_id : pyval) : M state pyval :=
  _increment_counter
    "appliance.getOrganizationApplianceDnsLocalProfilesAssignments" ;;
  try_except_APIError
    (response <- dashboard
                   "appliance.getOrganizationApplianceDnsLocalProfilesAssignments"
                   [org_id] ;;
     lift (py_get response "items" (PList [])))
    (fun str_e =>
       logger (ERROR_sdk "list_assignments" str_e) ;;
       ret (PList [])).

Definition assign_profile (org_id network_id profile_id : pyval) : M state pyval :=
  _increment_counter
    "appliance.bulkOrganizationApplianceDnsLocalProfilesAssignmentsCreate" ;;
  try_except_APIError
    (let items :=
       PList [PDict [("network", PDict [("id", network_id)]);
                     ("profile", PDict [("id", profile_id)])]] in
     dashboard
       "appliance.bulkOrganizationApplianceDnsLocalProfilesAssignmentsCreate"
       [org_id; items])
    (fun str_e =>
       logger (ERROR_sdk "assign_profile" str_e) ;;
       ret (PDict [("error", PStr str_e)])).

(** [res if res is not None else {}] *)
Definition or_empty_dict (res : pyval) : pyval :=
  match res with
  | PNone => PDict []
  | _ => res
  end.

Definition delete_profile (org_id profile_id : pyval) : M state pyval :=
  _increment_counter "appliance.deleteOrganizationApplianceDnsLocalProfile" ;;
  try_except_APIError
    (res <- dashboard "appliance.deleteOrganizationApplianceDnsLocalProfile"
              [org_id; profile_id] ;;
     ret (or_empty_dict res))
    (fun str_e =>
       logger (ERROR_sdk "delete_profile" str_e) ;;
       ret (PDict [("error", PStr str_e)])).

Definition delete_dns_record (org_id record_id : pyval) : M state pyval :=
  _increment_counter "appliance.deleteOrganizationApplianceDnsLocalRecord" ;;
  try_except_APIError
    (res <- dashboard "appliance.deleteOrganizationApplianceDnsLocalRecord"
              [org_id; record_id] ;;
     ret (or_empty_dict res))
    (fun str_e =>
       logger (ERROR_sdk "delete_dns_record" str_e) ;;
       ret (PDict [("error", PStr str_e)])).

Definition remove_assignment (org_id assignment_id : pyval) : M state pyval :=
  _increment_counter
    "appliance.createOrganizationApplianceDnsLocalProfilesAssignmentsBulkDelete" ;;
  try_except_APIError
    (let items := PList [PDict [("assignmentId", assignment_id)]] in
     res <- dashboard
              "appliance.createOrganizationApplianceDnsLocalProfilesAssignmentsBulkDelete"
              [org_id; items] ;;
     ret (or_empty_dict res))
    (fun str_e =>
       logger (ERROR_sdk "remove_assignment" str_e) ;;
       ret (PDict [("error", PStr str_e)])).

(** *** web.py: the profile buttons *)

Definition st_event (e : ui_event) : M state unit :=
  fun s =>
    (Return tt,
     mkState (API_CALL_COUNTER s) (log s) (cache s) (clock s)
             (world s) (sent s) (ui s ++ [e])).

(** The delete button of a profile row. *)
Definition del_prof (org_id p : pyval) : M state unit :=
  profileId <- lift (py_subscript p "profileId") ;;
  res <- delete_profile org_id profileId ;;
  ok <- lift (delete_test res) ;;
  if ok
  then st_event (Toast ToastProfileDeleted) ;;
       st_event (Sleep 1) ;;
       st_event Rerun
  else detail <- lift (py_subscript res "error") ;;
       st_event (Toast (ToastError detail)).

(** The add button of the creation row. *)
Definition add_prof_btn (org_id new_prof_name : pyval) : M state unit :=
  if truthy new_prof_name
  then res <- create_profile org_id new_prof_name ;;
       ok <- lift (create_test res) ;;
       if ok
       then st_event (Toast (ToastProfileCreated new_prof_name)) ;;
            st_event (SessionStateDel "new_prof_name") ;;
            st_event (Sleep 1) ;;
            st_event Rerun
       else detail <- lift (py_get res "error" (PStr "Unknown")) ;;
            st_event (Toast (ToastError detail))
  else st_event (Toast ToastEnterProfileName).

End Process.

Arguments mkState {W}.
Arguments API_CALL_COUNTER {W} s.
Arguments log {W} s.
Arguments cache {W} s.
Arguments clock {W} s.
Arguments world {W} s.
Arguments sent {W} s.
Arguments ui {W} s.
Arguments with_clock {W} t s.
Arguments logger {W} r s.
Arguments dashboard {W} remote endpoint args s.
Arguments _increment_counter {W} endpoint s.
Arguments cache_miss {W} func args body s.
Arguments cache_data {W} ttl func args body s.
Arguments cached {W} name func args body.
Arguments get_organizations {W} remote.
Arguments get_networks {W} remote organization_id.
Arguments list_profiles {W} remote org_id.
Arguments create_profile {W} remote org_id name.
Arguments list_dns_records {W} remote org_id.
Arguments create_dns_record {W} remote org_id profile_id hostname address.
Arguments list_assignments {W} remote org_id.
Arguments assign_profile {W} remote org_id network_id profile_id.
Arguments delete_profile {W} remote org_id profile_id.
Arguments delete_dns_record {W} remote org_id record_id.
Arguments remove_assignment {W} remote org_id assignment_id.
Arguments st_event {W} e s.
Arguments del_prof {W} remote org_id p.
Arguments add_prof_btn {W} remote org_id new_prof_name.

(** ** The gateway as seen by the page

    The page reaches the logic layer through method calls with literal
    arguments; [request] names them and [perform] is the call. *)
Inductive request : Type :=
| GetOrganizations
| GetNetworks (organization_id : pyval)
| ListProfiles (org_id : pyval)
| CreateProfile (org_id name : pyval)
| ListDnsRecords (org_id : pyval)
| CreateDnsRecord (org_id profile_id hostname address : pyval)
| ListAssignments (org_id : pyval)
| AssignProfile (org_id network_id profile_id : pyval)
| DeleteProfile (org_id profile_id : pyval)
| DeleteDnsRecord (org_id record_id : pyval)
| RemoveAssignment (org_id assignment_id : pyval).

Definition perform {W : Type}
    (remote : string -> list pyval -> W -> outcome pyval * W)
    (r : request) : M (state W) pyval :=
  match r with
  | GetOrganizations => get_organizations remote
  | GetNetworks o => get_networks remote o
  | ListProfiles o => list_profiles remote o
  | CreateProfile o n => create_profile remote o n
  | ListDnsRecords o => list_dns_records remote o
  | CreateDnsRecord o p h a => create_dns_record remote o p h a
  | ListAssignments o => list_assignments remote o
  | AssignProfile o n p => assign_profile remote o n p
  | DeleteProfile o p => delete_profile remote o p
  | DeleteDnsRecord o r => delete_dns_record remote o r
  | RemoveAssignment o a => remove_assignment remote o a
  end.

(** The three [list_X] methods. *)
Definition is_list_X (r : request) : bool :=
  match r with
  | ListProfiles _ | ListDnsRecords _ | ListAssignments _ => true
  | _ => false
  end.

(** The two methods under [st.cache_data]. *)
Definition is_cached (r : request) : bool :=
  match r with
  | GetOrganizations | GetNetworks _ => true
  | _ => false
  end.

(** The operations that return a collection. *)
Definition is_list (r : request) : bool := is_list_X r || is_cached r.

(** The operations that take something away. *)
Definition is_delete (r : request) : bool :=
  match r with
  | DeleteProfile _ _ | DeleteDnsRecord _ _ | RemoveAssignment _ _ => true
  | _ => false
  end.

(** The wire contract, as the specification lists it: for each request
    the remote operation and the arguments it is to be called with. *)
Definition wire_contract (r : request) : sdk_call :=
  match r with
  | GetOrganizations => ("organizations.getOrganizations", [])
  | GetNetworks o => ("organizations.getOrganizationNetworks", [o])
  | ListProfiles o =>
      ("appliance.getOrganizationApplianceDnsLocalProfiles", [o])
  | CreateProfile o n =>
      ("appliance.createOrganizationApplianceDnsLocalProfile", [o; n])
  | ListDnsRecords o =>
      ("appliance.getOrganizationApplianceDnsLocalRecords", [o])
  | CreateDnsRecord o p h a =>
      ("appliance.createOrganizationApplianceDnsLocalRecord",
       [o; h; a; PDict [("id", p)]])
  | ListAssignments o =>
      ("appliance.getOrganizationApplianceDnsLocalProfilesAssignments", [o])
  | AssignProfile o n p =>
      ("appliance.bulkOrganizationApplianceDnsLocalProfilesAssignmentsCreate",
       [o; PList [PDict [("network", PDict [("id", n)]);
                         ("profile", PDict [("id", p)])]]])
  | DeleteProfile o p =>
      ("appliance.deleteOrganizationApplianceDnsLocalProfile", [o; p])
  | DeleteDnsRecord o r =>
      ("appliance.deleteOrganizationApplianceDnsLocalRecord", [o; r])
  | RemoveAssignment o a =>
      ("appliance.createOrganizationApplianceDnsLocalProfilesAssignmentsBulkDelete",
       [o; PList [PDict [("assignmentId", a)]]])
  end.

(** What the remote service answers to a call in a given state. *)
Definition answer {W : Type}
    (remote : string -> list pyval -> W -> outcome pyval * W)
    (c : sdk_call) (w : W) : outcome pyval :=
  fst (remote (fst c) (snd c) w).

(** A value that carries an [error] field. *)
Definition has_error_field (v : pyval) : bool :=
  match v with
  | PDict d => match dict_lookup "error" d with Some _ => true | None => false end
  | _ => false
  end.

(** ** Support for the statements *)

(** Structural induction on values, through lists and objects. *)
Section PyvalInduction.

Variable P : pyval -> Prop.
Hypothesis HNone : P PNone.
Hypothesis HBool : forall b, P (PBool b).
Hypothesis HInt : forall n, P (PInt n).
Hypothesis HStr : forall s, P (PStr s).
Hypothesis HList : forall xs, Forall P xs -> P (PList xs).
Hypothesis HDict : forall kvs, Forall (fun kv => P (snd kv)) kvs -> P (PDict kvs).

Fixpoint pyval_nested_ind (v : pyval) : P v :=
  match v with
  | PNone => HNone
  | PBool b => HBool b
  | PInt n => HInt n
  | PStr s => HStr s
  | PList xs =>
      HList xs
        ((fix all (l : list pyval) : Forall P l :=
            match l with
            | [] => Forall_nil P
            | x :: l' => Forall_cons x (pyval_nested_ind x) (all l')
            end) xs)
  | PDict kvs =>
      HDict kvs
        ((fix all (l : list (string * pyval))
            : Forall (fun kv => P (snd kv)) l :=
            match l with
            | [] => Forall_nil _
            | kv :: l' => Forall_cons kv (pyval_nested_ind (snd kv)) (all l')
            end) kvs)
  end.

End PyvalInduction.

(** The key test of the cache store. *)
Definition key_matches (func : string) (args : list pyval) (e : cache_entry) : bool :=
  String.eqb func (entry_func e) && args_eqb args (entry_args e).

(** The body of a cached method: count, log, call. *)
Definition fetch {W : Type}
    (remote : string -> list pyval -> W -> outcome pyval * W)
    (endpoint : string) (args : list pyval) : M (state W) pyval :=
  _increment_counter endpoint ;; dashboard remote endpoint args.


(** The field of an entity, when the entity is an object that has it. *)
Definition field (f : string) (x : pyval) : option pyval :=
  match x with
  | PDict d => dict_lookup f d
  | _ => None
  end.

(** An entity of the data model that a lookup can be built from: an
    object with a hashable id under [key_field] and a name under
    [value_field]. *)
Definition keyed_entity (key_field value_field : string) (x : pyval) : bool :=
  match field key_field x, field value_field x with
  | Some k, Some _ => hashable k
  | _, _ => false
  end.

(** No item of the collection has the id [id]. *)
Definition no_match (key_field : string) (id : pyval) (items : list pyval) : bool :=
  forallb (fun x => match field key_field x with
                    | Some k => negb (key_eqb id k)
                    | None => true
                    end) items.

(** The name of the last item of the collection whose id is [id]. *)
Fixpoint matching_name (key_field value_field : string) (id : pyval)
    (items : list pyval) : option pyval :=
  match items with
  | [] => None
  | x :: rest =>
      match matching_name key_field value_field id rest with
      | Some n => Some n
      | None =>
          match field key_field x with
          | Some k => if key_eqb id k then field value_field x else None
          | None => None
          end
      end
  end.

(** ** Stub services and sample data *)

Definition init_state {W : Type} (w : W) : state W :=
  mkState 0%nat [] [] 0 w [] [].

(** A service that refuses every call with the same transport error. *)
Definition failing_stub (str_e : string)
    : string -> list pyval -> unit -> outcome pyval * unit :=
  fun _ _ w => (Raise (APIError str_e), w).

(** A service that answers every call with the same value. *)
Definition constant_stub (v : pyval)
    : string -> list pyval -> unit -> outcome pyval * unit :=
  fun _ _ w => (Return v, w).

(** A service that answers every call with the number of calls it has
    answered so far. *)
Definition counting_stub
    : string -> list pyval -> nat -> outcome pyval * nat :=
  fun _ _ n => (Return (PList [PInt (Z.of_nat n)]), S n).


Definition org_one : pyval := PStr "org1".

Definition eng_profile : pyval :=
  PDict [("profileId", PStr "p1"); ("name", PStr "Eng")].

Definition record_of (profile_id : string) : pyval :=
  PDict [("recordId", PStr "r1"); ("hostname", PStr "db.local");
         ("address", PStr "10.0.0.5");
         ("profile", PDict [("id", PStr profile_id)])].

Definition hq_network : pyval :=
  PDict [("id", PStr "N_1"); ("name", PStr "HQ")].

Definition hq_assignment : pyval :=
  PDict [("assignmentId", PStr "a1");
         ("network", PDict [("id", PStr "N_1")]);
         ("profile", PDict [("id", PStr "p9")])].

(** ** More of web.py *)

(** [d[k]] on a dict built by the page. *)
Definition pydict_getitem (d : pydict) (k : pyval) : outcome pyval :=
  if hashable k
  then match pydict_find d k with
       | Some v => Return v
       | None => Raise (Exception "KeyError")
       end
  else Raise (Exception "TypeError").

(** [list(d.keys())] *)
Definition pydict_keys (d : pydict) : list pyval := map fst d.

(** [st.selectbox(label, options)]: the option the user has picked, the
    first one as long as they have not; [None] when there is nothing to
    pick from. *)
Definition st_selectbox (options : list pyval) (picked : nat) : pyval :=
  match options with
  | [] => PNone
  | first :: _ => nth picked options first
  end.

(** The text of the dropdown entries, [f"{name} ({id})"]; [str] is the
    conversion of a value to text. *)
Definition display (str : pyval -> string) (name id : pyval) : pyval :=
  PStr (String.append (str name)
          (String.append " (" (String.append (str id) ")"))).

(** [{f"{x[name_field]} ({x[id_field]})": x[id_field] for x in coll}] *)
Fixpoint display_map_loop (str : pyval -> string) (name_field id_field : string)
    (items : list pyval) (acc : pydict) : outcome pydict :=
  match items with
  | [] => Return acc
  | x :: rest =>
      let* name := py_subscript x name_field in
      let* id := py_subscript x id_field in
      let* v := py_subscript x id_field in
      let* acc' := pydict_setitem acc (display str name id) v in
      display_map_loop str name_field id_field rest acc'
  end.

Definition display_map (str : pyval -> string) (name_field id_field : string)
    (coll : pyval) : outcome pydict :=
  let* items := py_iter coll in
  display_map_loop str name_field id_field items [].

(** The profile of a new DNS record: the dropdown over [p_map] and the
    id that goes to [create_dns_record]. *)
Definition new_prof_select (str : pyval -> string) (profiles : pyval)
    (picked : nat) : outcome (pyval * pyval) :=
  let* p_map := display_map str "name" "profileId" profiles in
  let selected := st_selectbox (pydict_keys p_map) picked in
  let* profile_id := pydict_getitem p_map selected in
  Return (selected, profile_id).

(** The scope of the page: the organizations, the map from their names
    to their ids, the one picked in the sidebar and its id. *)
Definition select_org {W : Type}
    (remote : string -> list pyval -> W -> outcome pyval * W)
    (picked : nat) : M (state W) pyval :=
  orgs <- get_organizations remote ;;
  org_map <- lift (dict_comprehension "name" "id" orgs) ;;
  let selected_org_name := st_selectbox (pydict_keys org_map) picked in
  lift (pydict_getitem org_map selected_org_name).

(** A path of the file system as [get_file_content] meets it: nothing
    there, a text file with its lines, or a file whose opening or
    reading raises. *)
Inductive file : Type :=
| NoFile
| TextFile (lines : list string)
| Unreadable (str_e : string).

(** [l[start:]] *)
Definition slice_from {A : Type} (start : Z) (l : list A) : list A :=
  let len := Z.of_nat (length l) in
  let i := if start <? 0 then Z.max 0 (start + len) else Z.min start len in
  skipn (Z.to_nat i) l.

Definition get_file_content (fs : string -> file) (file_path : string)
    (last_n_lines : option Z) : pyval :=
  match fs file_path with
  | NoFile =>
      PStr (String.append "File '" (String.append file_path "' not found."))
  | TextFile lines =>
      match last_n_lines with
      | Some n =>
          if negb (n =? 0)
          then PList (map PStr (slice_from (- n) lines))
          else PStr (String.concat "" lines)
      | None => PStr (String.concat "" lines)
      end
  | Unreadable str_e => PStr (String.append "Error reading file: " str_e)
  end.

(** An entity that has both fields. *)
Definition has_fields (f1 f2 : string) (x : pyval) : bool :=
  match field f1 x, field f2 x with
  | Some _, Some _ => true
  | _, _ => false
  end.

(** An entry of a dropdown map that stands for one of the entities: its
    key is the text shown for the entity and its value the entity's id. *)
Definition stands_for (str : pyval -> string) (name_field id_field : string)
    (entities : list pyval) (k v : pyval) : Prop :=
  exists x name,
    In x entities /\ field name_field x = Some name /\
    field id_field x = Some v /\ k = display str name v.

(** ** Sessions *)

(** The name under which a method reports a transport error to the
    log; the cached methods report none. *)
Definition method_name (r : request) : string :=
  match r with
  | GetOrganizations => "get_organizations"
  | GetNetworks _ => "get_networks"
  | ListProfiles _ => "list_profiles"
  | CreateProfile _ _ => "create_profile"
  | ListDnsRecords _ => "list_dns_records"
  | CreateDnsRecord _ _ _ _ => "create_dns_record"
  | ListAssignments _ => "list_assignments"
  | AssignProfile _ _ _ => "assign_profile"
  | DeleteProfile _ _ => "delete_profile"
  | DeleteDnsRecord _ _ => "delete_dns_record"
  | RemoveAssignment _ _ => "remove_assignment"
  end.

(** The page at work: one request after the other, each at its time. *)
Fixpoint perform_all {W : Type}
    (remote : string -> list pyval -> W -> outcome pyval * W)
    (rs : list (Z * request)) (s : state W) : state W :=
  match rs with
  | [] => s
  | (t, r) :: later =>
      perform_all remote later (snd (perform remote r (with_clock t s)))
  end.

(** The ERROR records a call leaves for a given remote answer. *)
Definition error_records (r : request) (o : outcome pyval) : list log_record :=
  match o with
  | Raise (APIError str_e) => [ERROR_sdk (method_name r) str_e]
  | _ => []
  end.

(** A computation that does nothing but show things on the page. *)
Definition only_ui {W A : Type} (c : M (state W) A) : Prop :=
  forall s, exists events,
    snd (c s) = mkState (API_CALL_COUNTER s) (log s) (cache s) (clock s)
                        (world s) (sent s) (ui s ++ events).

(** A service whose calls die of something that is no transport error. *)
Definition crashing_stub (cls : string)
    : string -> list pyval -> unit -> outcome pyval * unit :=
  fun _ _ w => (Raise (Exception cls), w).

Definition acme_org : pyval :=
  PDict [("id", PStr "o1"); ("name", PStr "Acme")].

(** Text of a value, for the samples: strings are their own text. *)
Definition sample_str (v : pyval) : string :=
  match v with
  | PStr s => s
  | _ => "None"
  end.

Definition sample_fs (path : string) : file :=
  if String.eqb path "app.log"
  then TextFile ["one"; "two"; "three"]
  else NoFile.

(** A moment at which the networks of [org_one] have been cached. *)
Definition networks_cached : state nat :=
  snd (get_networks counting_stub org_one (with_clock 0 (init_state 0%nat))).

(** The process an hour and more after its start: the organizations
    are still cached, the networks of [org_one] have expired. *)
Definition later_state : state unit :=
  mkState 2%nat [] 
    [mkEntry "ProjectLogic.get_organizations" [] (PList [acme_org]) 100;
     mkEntry "ProjectLogic.get_networks" [org_one] (PList [hq_network]) 100]
    5000 tt [] [].


(** DNS Records mode, one row of the table: the three texts read off
    the record, then the profile. *)
Definition record_row (prof_lookup : pydict) (r : pyval)
    : outcome (pyval * pyval * pyval * (pyval * pyval)) :=
  let* recordId := py_subscript r "recordId" in
  let* hostname := py_subscript r "hostname" in
  let* address := py_subscript r "address" in
  let* profile := record_profile prof_lookup r in
  Return (recordId, hostname, address, profile).

(** * Properties *)

(** ** Running a gateway method *)

Ltac unfold_gateway :=
  cbv [perform list_profiles list_dns_records list_assignments
       create_profile create_dns_record assign_profile
       delete_profile delete_dns_record remove_assignment
       bind try_except_APIError dashboard _increment_counter logger
       lift ret raise world sent wire_contract answer fst snd] in *.

(** Unfold the method, then split on what the remote service answers. *)
Ltac run_gateway :=
  unfold_gateway;
  match goal with
  | |- context [?remote ?ep ?args ?w] =>
      match type of (remote ep args w) with
      | (outcome pyval * _)%type =>
          let o := fresh "o" in
          let w' := fresh "w'" in
          destruct (remote ep args w) as [o w']
      end
  end.

Section GatewayFacts.

Variable W : Type.
Variable remote : string -> list pyval -> W -> outcome pyval * W.

(** Every uncached method issues exactly the call of the wire contract,
    whatever the answer. *)
Lemma uncached_sends (r : request) (s : state W) :
  is_cached r = false ->
  sent (snd (perform remote r s)) = sent s ++ [wire_contract r].
Proof.
  intros Hr.
  destruct r; try discriminate Hr; run_gateway;
    destruct o as [v | [e | c]]; try destruct v; reflexivity.
Qed.

(** C2: each of [list_profiles], [list_dns_records] and
    [list_assignments] returns the [items] of the envelope the remote
    call answers, as they are; the empty list when the envelope has no
    [items]; the empty list when the remote call raises a transport
    error. *)
Theorem list_X_unwraps_items (r : request) (s : state W) :
  is_list_X r = true ->
  (forall d items,
      answer remote (wire_contract r) (world s) = Return (PDict d) ->
      dict_lookup "items" d = Some items ->
      fst (perform remote r s) = Return items) /\
  (forall d,
      answer remote (wire_contract r) (world s) = Return (PDict d) ->
      dict_lookup "items" d = None ->
      fst (perform remote r s) = Return (PList [])) /\
  (forall str_e,
      answer remote (wire_contract r) (world s) = Raise (APIError str_e) ->
      fst (perform remote r s) = Return (PList [])).
Proof.
  intros Hr.
  destruct r; try discriminate Hr.
  all: repeat split; intros; run_gateway; subst o; cbn [py_get];
    try match goal with H : dict_lookup _ _ = _ |- _ => rewrite H end;
    reflexivity.
Qed.

(** C3, as the code has it: [create_profile] returns the object the
    remote call returns, as it is; when the remote call raises a
    transport error it returns [{"error": str(e)}]: the [error] field is
    there and holds the text of the error as it is, empty when that
    text is empty. *)
Theorem create_profile_result (org_id name : pyval) (s : state W) :
  (forall created,
      answer remote (wire_contract (CreateProfile org_id name)) (world s)
      = Return created ->
      fst (create_profile remote org_id name s) = Return created) /\
  (forall str_e,
      answer remote (wire_contract (CreateProfile org_id name)) (world s)
      = Raise (APIError str_e) ->
      fst (create_profile remote org_id name s)
      = Return (PDict [("error", PStr str_e)]) /\
      has_error_field (PDict [("error", PStr str_e)]) = true).
Proof.
  split.
  - intros created H. run_gateway. subst o. reflexivity.
  - intros str_e H. split; [| reflexivity]. run_gateway. subst o. reflexivity.
Qed.

(** C4, as the code has it: a delete method never returns [None].  It
    returns the empty dict when the remote call returns nothing, the
    remote reply itself when there is one, and [{"error": str(e)}] when
    the remote call raises a transport error; the empty dict has no
    [error] field and the error value has one. *)
Theorem delete_result (r : request) (s : state W) :
  is_delete r = true ->
  (answer remote (wire_contract r) (world s) = Return PNone ->
   fst (perform remote r s) = Return (PDict []) /\
   has_error_field (PDict []) = false) /\
  (forall reply,
      answer remote (wire_contract r) (world s) = Return reply ->
      reply <> PNone ->
      fst (perform remote r s) = Return reply) /\
  (forall str_e,
      answer remote (wire_contract r) (world s) = Raise (APIError str_e) ->
      fst (perform remote r s) = Return (PDict [("error", PStr str_e)]) /\
      has_error_field (PDict [("error", PStr str_e)]) = true) /\
  fst (perform remote r s) <> Return PNone.
Proof.
  intros Hr.
  destruct r; try discriminate Hr.
  all: repeat split; intros; run_gateway; try subst o;
    try reflexivity;
    try (destruct reply; [ congruence | reflexivity .. ]);
    try (destruct o as [[ | | | | | ] | [e | c]]; discriminate).
Qed.

(** C5: [assign_profile] calls the bulk create operation with the one
    element list [[{"network": {"id": network_id}, "profile": {"id":
    profile_id}}]], [remove_assignment] calls the bulk delete operation
    with [[{"assignmentId": assignment_id}]], and [create_dns_record]
    passes [{"id": profile_id}] as the profile argument; each method
    issues this one call and no other, whatever the remote answers. *)
Theorem request_shapes (s : state W)
    (org_id network_id profile_id assignment_id hostname address : pyval) :
  (exists batch,
      sent (snd (assign_profile remote org_id network_id profile_id s))
      = sent s ++
        [("appliance.bulkOrganizationApplianceDnsLocalProfilesAssignmentsCreate",
          [org_id; PList batch])] /\
      batch = [PDict [("network", PDict [("id", network_id)]);
                      ("profile", PDict [("id", profile_id)])]] /\
      length batch = 1%nat) /\
  (exists batch,
      sent (snd (remove_assignment remote org_id assignment_id s))
      = sent s ++
        [("appliance.createOrganizationApplianceDnsLocalProfilesAssignmentsBulkDelete",
          [org_id; PList batch])] /\
      batch = [PDict [("assignmentId", assignment_id)]] /\
      length batch = 1%nat) /\
  sent (snd (create_dns_record remote org_id profile_id hostname address s))
  = sent s ++
    [("appliance.createOrganizationApplianceDnsLocalRecord",
      [org_id; hostname; address; PDict [("id", profile_id)]])].
Proof.
  split; [| split].
  - eexists; split; [| split; reflexivity].
    apply (uncached_sends (AssignProfile org_id network_id profile_id) s eq_refl).
  - eexists; split; [| split; reflexivity].
    apply (uncached_sends (RemoveAssignment org_id assignment_id) s eq_refl).
  - apply (uncached_sends
             (CreateDnsRecord org_id profile_id hostname address) s eq_refl).
Qed.

End GatewayFacts.

(** ** Equality of values *)

Lemma pyval_eqb_eq (a b : pyval) : pyval_eqb a b = true <-> a = b.
Proof.
  revert b. induction a as [ | x | x | x | xs IH | kvs IH ] using pyval_nested_ind;
    intros b; destruct b as [ | y | y | y | ys | kys ]; cbn;
    try (split; [ discriminate | congruence ]); try tauto.
  - rewrite Bool.eqb_true_iff. split; congruence.
  - rewrite Z.eqb_eq. split; congruence.
  - rewrite String.eqb_eq. split; congruence.
  - revert ys. induction IH as [ | x xs Hx _ IHxs ]; intros [ | y ys ];
      try (split; [ discriminate | congruence ]); try tauto.
    rewrite Bool.andb_true_iff, Hx, IHxs. split.
    + intros [-> H]. congruence.
    + intros H. injection H as -> ->. tauto.
  - revert kys. induction IH as [ | [k x] kvs Hx _ IHkvs ]; intros [ | [k' y] kys ];
      try (split; [ discriminate | congruence ]); try tauto.
    rewrite !Bool.andb_true_iff, String.eqb_eq. cbn in Hx. rewrite Hx, IHkvs.
    split.
    + intros [[-> ->] H]. congruence.
    + intros H. injection H as -> -> ->. tauto.
Qed.

Lemma args_eqb_eq (l1 l2 : list pyval) : args_eqb l1 l2 = true <-> l1 = l2.
Proof.
  revert l2. induction l1 as [ | x l1 IH ]; intros [ | y l2 ]; cbn;
    try (split; [ discriminate | congruence ]); try tauto.
  rewrite Bool.andb_true_iff, pyval_eqb_eq, IH. split.
  - intros [-> ->]. reflexivity.
  - intros H. injection H as -> ->. tauto.
Qed.

(** ** The cache store *)

Lemma key_matches_spec func args e :
  key_matches func args e = true <-> func = entry_func e /\ args = entry_args e.
Proof.
  unfold key_matches. rewrite Bool.andb_true_iff, String.eqb_eq, args_eqb_eq.
  tauto.
Qed.

Lemma cache_lookup_store_same (e : cache_entry) (c : list cache_entry) :
  cache_lookup (entry_func e) (entry_args e) (cache_store e c) = Some e.
Proof.
  assert (Hrefl : key_matches (entry_func e) (entry_args e) e = true)
    by (apply key_matches_spec; split; reflexivity).
  unfold key_matches in Hrefl.
  induction c as [ | e' c IH ]; cbn.
  - rewrite Hrefl. reflexivity.
  - destruct (String.eqb (entry_func e) (entry_func e')
              && args_eqb (entry_args e) (entry_args e')) eqn:E; cbn.
    + rewrite Hrefl. reflexivity.
    + rewrite E. exact IH.
Qed.

Lemma cache_lookup_store_other func args (e : cache_entry) (c : list cache_entry) :
  key_matches func args e = false ->
  cache_lookup func args (cache_store e c) = cache_lookup func args c.
Proof.
  intros Hother. unfold key_matches in Hother.
  induction c as [ | e' c IH ]; cbn.
  - rewrite Hother. reflexivity.
  - destruct (String.eqb (entry_func e) (entry_func e')
              && args_eqb (entry_args e) (entry_args e')) eqn:E; cbn.
    + rewrite Hother.
      apply (proj1 (key_matches_spec _ _ _)) in E. destruct E as [Ef Ea].
      rewrite <- Ef, <- Ea, Hother. reflexivity.
    + rewrite IH. reflexivity.
Qed.

Section CacheFacts.

Variable W : Type.
Variable remote : string -> list pyval -> W -> outcome pyval * W.

Lemma fetch_outcome endpoint args (s : state W) :
  fst (fetch remote endpoint args s) = fst (remote endpoint args (world s)).
Proof.
  cbv [fetch bind _increment_counter logger dashboard world].
  destruct (remote endpoint args _); reflexivity.
Qed.

Lemma fetch_state endpoint args (s : state W) :
  let s' := snd (fetch remote endpoint args s) in
  cache s' = cache s /\ clock s' = clock s /\
  sent s' = sent s ++ [(endpoint, args)].
Proof.
  cbv [fetch bind _increment_counter logger dashboard world].
  destruct (remote endpoint args _); cbn; auto.
Qed.

Lemma cache_data_hit ttl func args body (s : state W) e :
  cache_lookup func args (cache s) = Some e ->
  clock s < entry_stored e + ttl ->
  cache_data ttl func args body s = (Return (entry_value e), s).
Proof.
  intros Hfound Hlive. unfold cache_data. rewrite Hfound.
  apply Z.ltb_lt in Hlive. rewrite Hlive. reflexivity.
Qed.

Lemma cache_data_miss ttl func args body (s : state W) :
  (forall e, cache_lookup func args (cache s) = Some e ->
             entry_stored e + ttl <= clock s) ->
  cache_data ttl func args body s = cache_miss func args body s.
Proof.
  intros Hstale. unfold cache_data.
  destruct (cache_lookup func args (cache s)) as [e | ]; [| reflexivity].
  specialize (Hstale e eq_refl). apply Z.ltb_ge in Hstale.
  rewrite Hstale. reflexivity.
Qed.

(** A miss that fetches: the call goes out; a returned value is stored
    under the key with the time of the call, a raised error stores
    nothing. *)
Lemma cache_miss_fetch func endpoint args (s : state W) :
  let r := cache_miss func args (fetch remote endpoint args) s in
  fst r = fst (remote endpoint args (world s)) /\
  sent (snd r) = sent s ++ [(endpoint, args)] /\
  clock (snd r) = clock s /\
  cache (snd r) =
  match fst r with
  | Return v => cache_store (mkEntry func args v (clock s)) (cache s)
  | Raise _ => cache s
  end.
Proof.
  cbv zeta. unfold cache_miss.
  pose proof (fetch_outcome endpoint args s) as Ho.
  pose proof (fetch_state endpoint args s) as (Hc & Ht & Hs).
  destruct (fetch remote endpoint args s) as [[v | e] s']; cbn in *;
    rewrite <- Ho; repeat split; try assumption.
  rewrite Ht, Hc. reflexivity.
Qed.

Lemma get_organizations_unfold :
  get_organizations remote =
  cache_data 86400 "ProjectLogic.get_organizations" []
    (fetch remote "organizations.getOrganizations" []).
Proof. reflexivity. Qed.

Lemma get_networks_unfold (organization_id : pyval) :
  get_networks remote organization_id =
  cache_data 3600 "ProjectLogic.get_networks" [organization_id]
    (fetch remote "organizations.getOrganizationNetworks" [organization_id]).
Proof. reflexivity. Qed.

(** C6, as the code has it: take two calls of [get_organizations], at
    [t1] and at [t2],
    where the first finds no live entry and so has to fetch.  If the
    first returns and the second comes less than the organizations TTL
    later, the pair issues exactly one remote call and the second
    returns the value of the first.  If the second comes more than the
    TTL later, the pair issues two remote calls.  The TTL of
    [get_networks] is [CACHE_CONFIG['medium']], 3600 seconds, that of
    [get_organizations] is [CACHE_CONFIG['long']], 86400 seconds. *)
Theorem organizations_cache_window (s : state W) (t1 t2 : Z) :
  let call := ("organizations.getOrganizations", @nil pyval) in
  let first := get_organizations remote (with_clock t1 s) in
  let second := get_organizations remote (with_clock t2 (snd first)) in
  (forall e,
      cache_lookup "ProjectLogic.get_organizations" [] (cache s) = Some e ->
      entry_stored e + 86400 <= t1) ->
  (forall orgs,
      fst first = Return orgs ->
      t2 - t1 < 86400 ->
      sent (snd second) = sent s ++ [call] /\ fst second = Return orgs) /\
  (86400 < t2 - t1 ->
   sent (snd second) = sent s ++ [call; call]) /\
  (exists ttl_orgs ttl_nets,
      dict_lookup "long" CACHE_CONFIG = Some ttl_orgs /\
      dict_lookup "medium" CACHE_CONFIG = Some ttl_nets /\
      get_organizations remote =
      cache_data ttl_orgs "ProjectLogic.get_organizations" []
        (fetch remote "organizations.getOrganizations" []) /\
      (forall organization_id,
          get_networks remote organization_id =
          cache_data ttl_nets "ProjectLogic.get_networks" [organization_id]
            (fetch remote "organizations.getOrganizationNetworks" [organization_id])) /\
      ttl_orgs = 86400 /\ ttl_nets = 3600 /\ ttl_nets < ttl_orgs).
Proof.
  intros call first second Hstale.
  assert (Hfirst : first = cache_miss "ProjectLogic.get_organizations" []
                             (fetch remote "organizations.getOrganizations" [])
                             (with_clock t1 s)).
  { unfold first. rewrite get_organizations_unfold.
    apply cache_data_miss. exact Hstale. }
  pose proof (cache_miss_fetch "ProjectLogic.get_organizations"
                "organizations.getOrganizations" [] (with_clock t1 s))
    as (Ho & Hsent & Hclock & Hcache).
  cbv zeta in Ho, Hsent, Hclock, Hcache.
  rewrite <- Hfirst in Ho, Hsent, Hclock, Hcache.
  cbn [with_clock sent clock cache] in Hsent, Hclock, Hcache.
  split; [| split].
  - intros orgs Hret Hwithin.
    rewrite Hret in Hcache.
    assert (Hhit : second = (Return orgs, with_clock t2 (snd first))).
    { unfold second. rewrite get_organizations_unfold.
      apply (cache_data_hit 86400 _ _ _ (with_clock t2 (snd first))
               (mkEntry "ProjectLogic.get_organizations" [] orgs t1)).
      - cbn [with_clock cache]. rewrite Hcache.
        apply (cache_lookup_store_same
                 (mkEntry "ProjectLogic.get_organizations" [] orgs t1)).
      - cbn. lia. }
    rewrite Hhit. cbn [fst snd with_clock sent]. split; [exact Hsent | reflexivity].
  - intros Hafter.
    assert (Hmiss : second = cache_miss "ProjectLogic.get_organizations" []
                               (fetch remote "organizations.getOrganizations" [])
                               (with_clock t2 (snd first))).
    { unfold second. rewrite get_organizations_unfold.
      apply cache_data_miss. cbn [with_clock cache clock]. rewrite Hcache.
      intros e He. destruct (fst first) as [orgs | err].
      - rewrite (cache_lookup_store_same
                   (mkEntry "ProjectLogic.get_organizations" [] orgs t1)) in He.
        injection He as <-. cbn. lia.
      - specialize (Hstale e He). lia. }
    pose proof (cache_miss_fetch "ProjectLogic.get_organizations"
                  "organizations.getOrganizations" []
                  (with_clock t2 (snd first))) as (_ & Hsent2 & _).
    cbv zeta in Hsent2. rewrite <- Hmiss in Hsent2.
    cbn [with_clock sent] in Hsent2. rewrite Hsent2, Hsent, <- app_assoc.
    reflexivity.
  - exists 86400, 3600. repeat split; try reflexivity.
Qed.



End CacheFacts.

Section CachedErrors.

Variable W : Type.
Variable remote : string -> list pyval -> W -> outcome pyval * W.

(** C1, as the code has it: a transport error raised by the remote call
    of any method that is not under [st.cache_data] is caught in the
    method, which returns the empty list if it is a [list_X] and the
    value [{"error": str(e)}] otherwise.  The two cached methods,
    [get_organizations] and [get_networks], have no handler: whenever
    they have to fetch, that is whenever the store holds no live entry
    for the call, the error leaves them as it came. *)
Theorem transport_errors_caught_unless_cached
    (r : request) (s : state W) (str_e : string) :
  answer remote (wire_contract r) (world s) = Raise (APIError str_e) ->
  (is_cached r = false ->
   fst (perform remote r s) =
   Return (if is_list_X r then PList [] else PDict [("error", PStr str_e)])) /\
  (r = GetOrganizations ->
   (forall e,
       cache_lookup "ProjectLogic.get_organizations" [] (cache s) = Some e ->
       entry_stored e + 86400 <= clock s) ->
   fst (perform remote r s) = Raise (APIError str_e)) /\
  (forall organization_id,
      r = GetNetworks organization_id ->
      (forall e,
          cache_lookup "ProjectLogic.get_networks" [organization_id] (cache s)
          = Some e ->
          entry_stored e + 3600 <= clock s) ->
      fst (perform remote r s) = Raise (APIError str_e)).
Proof.
  intros Hfail; split; [| split].
  - intros Hr.
    destruct r; try discriminate Hr; run_gateway; subst o; reflexivity.
  - intros -> Hstale. cbn [perform]. rewrite get_organizations_unfold.
    rewrite (cache_data_miss W 86400 _ _ _ s Hstale).
    pose proof (cache_miss_fetch W remote "ProjectLogic.get_organizations"
                  "organizations.getOrganizations" [] s) as (Ho & _).
    cbv zeta in Ho. rewrite Ho. exact Hfail.
  - intros organization_id -> Hstale. cbn [perform].
    rewrite get_networks_unfold.
    rewrite (cache_data_miss W 3600 _ _ _ s Hstale).
    pose proof (cache_miss_fetch W remote "ProjectLogic.get_networks"
                  "organizations.getOrganizationNetworks" [organization_id] s)
      as (Ho & _).
    cbv zeta in Ho. rewrite Ho. exact Hfail.
Qed.

End CachedErrors.

(** ** Relational lookups *)

Lemma key_eqb_sym (a b : pyval) : key_eqb a b = key_eqb b a.
Proof.
  destruct a as [ | x | x | x | | ], b as [ | y | y | y | | ]; cbn;
    try reflexivity.
  - destruct x, y; reflexivity.
  - apply Z.eqb_sym.
  - apply Z.eqb_sym.
  - apply Z.eqb_sym.
  - apply String.eqb_sym.
Qed.

Lemma key_eqb_congr (a b c : pyval) :
  key_eqb a b = true -> key_eqb a c = key_eqb b c.
Proof.
  intros H.
  destruct a as [ | x | x | x | | ], b as [ | y | y | y | | ];
    cbn in H; try discriminate H;
    try (apply Bool.eqb_prop in H);
    try (apply Z.eqb_eq in H);
    try (apply String.eqb_eq in H);
    subst; try reflexivity;
    destruct c as [ | z | z | z | | ]; cbn; try reflexivity;
    try (destruct x; destruct z; reflexivity);
    try (destruct y; destruct z; reflexivity).
Qed.

Lemma pydict_find_store (d : pydict) (k v id : pyval) :
  pydict_find (pydict_store d k v) id
  = if key_eqb id k then Some v else pydict_find d id.
Proof.
  induction d as [ | [k' v'] d IH ]; cbn.
  - reflexivity.
  - destruct (key_eqb k k') eqn:Ekk'; cbn.
    + rewrite (key_eqb_sym id k), (key_eqb_sym id k').
      rewrite (key_eqb_congr k k' id Ekk').
      destruct (key_eqb k' id); reflexivity.
    + rewrite IH. destruct (key_eqb id k') eqn:Eik'; [| reflexivity].
      destruct (key_eqb id k) eqn:Eik; [| reflexivity].
      rewrite (key_eqb_sym id k) in Eik.
      rewrite (key_eqb_congr k id k') in Ekk' by exact Eik.
      congruence.
Qed.

Lemma keyed_entity_fields kf vf x :
  keyed_entity kf vf x = true ->
  exists k v, py_subscript x kf = Return k /\ py_subscript x vf = Return v /\
              field kf x = Some k /\ field vf x = Some v /\ hashable k = true.
Proof.
  unfold keyed_entity, field, py_subscript.
  destruct x as [ | | | | | d ]; try discriminate.
  destruct (dict_lookup kf d) as [k | ]; [| discriminate].
  destruct (dict_lookup vf d) as [v | ]; [| discriminate].
  intros Hk. exists k, v. repeat split; assumption.
Qed.

(** The comprehension over well-formed entities returns a dict that
    maps an id to the name of the last entity carrying it. *)
Lemma comprehension_loop_finds kf vf (items : list pyval) (acc : pydict) :
  forallb (keyed_entity kf vf) items = true ->
  exists d,
    comprehension_loop kf vf items acc = Return d /\
    forall id,
      pydict_find d id
      = match matching_name kf vf id items with
        | Some n => Some n
        | None => pydict_find acc id
        end.
Proof.
  revert acc. induction items as [ | x rest IH ]; intros acc Hwf.
  - exists acc. split; reflexivity.
  - cbn [forallb] in Hwf. apply Bool.andb_true_iff in Hwf as [Hx Hrest].
    destruct (keyed_entity_fields kf vf x Hx) as (k & v & Hk & Hv & Fk & Fv & Hh).
    destruct (IH (pydict_store acc k v) Hrest) as (d & Hd & Hfind).
    exists d. split.
    + cbn [comprehension_loop]. rewrite Hk, Hv. cbn [obind].
      unfold pydict_setitem. rewrite Hh. cbn [obind]. exact Hd.
    + intros id. rewrite Hfind. cbn [matching_name].
      destruct (matching_name kf vf id rest); [reflexivity |].
      rewrite pydict_find_store, Fk, Fv.
      destruct (key_eqb id k); reflexivity.
Qed.

Lemma matching_name_none kf vf id (items : list pyval) :
  no_match kf id items = true -> matching_name kf vf id items = None.
Proof.
  induction items as [ | x rest IH ]; cbn; [reflexivity |].
  intros H. apply Bool.andb_true_iff in H as [Hx Hrest].
  rewrite (IH Hrest).
  destruct (field kf x) as [k | ]; [| reflexivity].
  destruct (key_eqb id k); [discriminate | reflexivity].
Qed.

Lemma matching_name_last kf vf id (before after : list pyval) x k name :
  field kf x = Some k -> key_eqb id k = true -> field vf x = Some name ->
  no_match kf id after = true ->
  matching_name kf vf id (before ++ x :: after) = Some name.
Proof.
  intros Fk Hk Fv Hafter.
  induction before as [ | y before IH ]; cbn.
  - rewrite (matching_name_none kf vf id after Hafter), Fk, Hk. exact Fv.
  - rewrite IH. reflexivity.
Qed.

(** C8: with fetched profiles that are objects with a [profileId] and a
    [name], and a record whose profile reference reads as [pid], the
    lookup is built and the record resolved without an exception; the
    name shown is that of the profile whose [profileId] is [pid], and
    the literal ["Unknown"] when no fetched profile has this id.  The
    same holds for both references of an assignment against the fetched
    networks and profiles. *)
Theorem lookup_resolves_or_unknown
    (profiles nets : list pyval) (r prof pid : pyval)
    (a a_net a_prof n_id p_id : pyval) :
  forallb (keyed_entity "profileId" "name") profiles = true ->
  forallb (keyed_entity "id" "name") nets = true ->
  py_get r "profile" (PDict []) = Return prof ->
  py_get prof "id" (PStr "N/A") = Return pid ->
  hashable pid = true ->
  py_get a "network" (PDict []) = Return a_net ->
  py_get a_net "id" PNone = Return n_id ->
  py_get a "profile" (PDict []) = Return a_prof ->
  py_get a_prof "id" PNone = Return p_id ->
  hashable n_id = true ->
  hashable p_id = true ->
  exists prof_lookup net_lookup,
    dict_comprehension "profileId" "name" (PList profiles) = Return prof_lookup /\
    dict_comprehension "id" "name" (PList nets) = Return net_lookup /\
    (exists pname, record_profile prof_lookup r = Return (pname, pid)) /\
    (forall before p after k name,
        profiles = before ++ p :: after ->
        field "profileId" p = Some k -> key_eqb pid k = true ->
        field "name" p = Some name ->
        no_match "profileId" pid after = true ->
        record_profile prof_lookup r = Return (name, pid)) /\
    (no_match "profileId" pid profiles = true ->
     record_profile prof_lookup r = Return (PStr "Unknown", pid)) /\
    (exists n_name p_name,
        assignment_names net_lookup prof_lookup a
        = Return ((n_name, n_id), (p_name, p_id)) /\
        (forall before n after k name,
            nets = before ++ n :: after ->
            field "id" n = Some k -> key_eqb n_id k = true ->
            field "name" n = Some name ->
            no_match "id" n_id after = true ->
            n_name = name) /\
        (forall before p after k name,
            profiles = before ++ p :: after ->
            field "profileId" p = Some k -> key_eqb p_id k = true ->
            field "name" p = Some name ->
            no_match "profileId" p_id after = true ->
            p_name = name) /\
        (no_match "id" n_id nets = true -> n_name = PStr "Unknown") /\
        (no_match "profileId" p_id profiles = true -> p_name = PStr "Unknown")).
Proof.
  intros Hprofiles Hnets Hprof Hpid Hhash Hanet Hnid Haprof Hapid Hhn Hhp.
  destruct (comprehension_loop_finds "profileId" "name" profiles [] Hprofiles)
    as (prof_lookup & Hbuilt & Hfind).
  destruct (comprehension_loop_finds "id" "name" nets [] Hnets)
    as (net_lookup & Hnbuilt & Hnfind).
  exists prof_lookup, net_lookup.
  assert (Hget : forall id, hashable id = true ->
            pydict_get prof_lookup id (PStr "Unknown")
            = Return (match matching_name "profileId" "name" id profiles with
                      | Some n => n
                      | None => PStr "Unknown"
                      end)).
  { intros id Hid. unfold pydict_get. rewrite Hid, Hfind. cbn [pydict_find].
    destruct (matching_name "profileId" "name" id profiles); reflexivity. }
  assert (Hnget : forall id, hashable id = true ->
            pydict_get net_lookup id (PStr "Unknown")
            = Return (match matching_name "id" "name" id nets with
                      | Some n => n
                      | None => PStr "Unknown"
                      end)).
  { intros id Hid. unfold pydict_get. rewrite Hid, Hnfind. cbn [pydict_find].
    destruct (matching_name "id" "name" id nets); reflexivity. }
  assert (Hrow : record_profile prof_lookup r
                 = Return (match matching_name "profileId" "name" pid profiles with
                           | Some n => n
                           | None => PStr "Unknown"
                           end, pid)).
  { unfold record_profile. rewrite Hprof. cbn [obind]. rewrite Hpid. cbn [obind].
    rewrite (Hget pid Hhash). reflexivity. }
  split; [exact Hbuilt | split; [exact Hnbuilt |]].
  split; [| split; [| split]].
  - eexists. exact Hrow.
  - intros before p after k name -> Fk Hk Fv Hafter.
    rewrite Hrow, (matching_name_last _ _ _ before after p k name Fk Hk Fv Hafter).
    reflexivity.
  - intros Hnone. rewrite Hrow, (matching_name_none _ "name" _ _ Hnone).
    reflexivity.
  - eexists. eexists. split; [| split; [| split; [| split]]].
    + unfold assignment_names. rewrite Hanet. cbn [obind]. rewrite Hnid.
      cbn [obind]. rewrite Haprof. cbn [obind]. rewrite Hapid. cbn [obind].
      rewrite (Hnget n_id Hhn), (Hget p_id Hhp). cbn [obind]. reflexivity.
    + intros before n after k name -> Fk Hk Fv Hafter.
      rewrite (matching_name_last _ _ _ before after n k name Fk Hk Fv Hafter).
      reflexivity.
    + intros before p after k name -> Fk Hk Fv Hafter.
      rewrite (matching_name_last _ _ _ before after p k name Fk Hk Fv Hafter).
      reflexivity.
    + intros Hnone. rewrite (matching_name_none _ "name" _ _ Hnone). reflexivity.
    + intros Hnone. rewrite (matching_name_none _ "name" _ _ Hnone). reflexivity.
Qed.

(** ** The button handlers *)

Section HandlerFacts.

Variable W : Type.
Variable remote : string -> list pyval -> W -> outcome pyval * W.

(** C10: on a falsy result the test after a delete says success and the
    test after a create says failure.  The empty dict is such a result
    and has no [error] field: when the remote answers a create with it,
    the add button shows the error toast (with the text ["Unknown"]),
    while a delete that ends in the empty dict shows the success
    toast. *)
Theorem success_tests_asymmetric :
  (forall res, truthy res = false ->
               delete_test res = Return true /\ create_test res = Return false) /\
  truthy (PDict []) = false /\
  py_in "error" (PDict []) = Return false /\
  (forall org_id new_prof_name (s : state W),
      truthy new_prof_name = true ->
      answer remote (wire_contract (CreateProfile org_id new_prof_name)) (world s)
      = Return (PDict []) ->
      fst (create_profile remote org_id new_prof_name s) = Return (PDict []) /\
      ui (snd (add_prof_btn remote org_id new_prof_name s))
      = ui s ++ [Toast (ToastError (PStr "Unknown"))]) /\
  (forall org_id p profileId (s : state W),
      py_subscript p "profileId" = Return profileId ->
      answer remote (wire_contract (DeleteProfile org_id profileId)) (world s)
      = Return PNone ->
      fst (delete_profile remote org_id profileId s) = Return (PDict []) /\
      ui (snd (del_prof remote org_id p s))
      = ui s ++ [Toast ToastProfileDeleted; Sleep 1; Rerun]).
Proof.
  split; [| split; [| split; [| split]]].
  - intros res Hfalsy. unfold delete_test, create_test. rewrite Hfalsy.
    split; reflexivity.
  - reflexivity.
  - reflexivity.
  - intros org_id new_prof_name s Hname Hanswer. unfold add_prof_btn.
    rewrite Hname. split.
    + run_gateway. subst o. reflexivity.
    + run_gateway. subst o. reflexivity.
  - intros org_id p profileId s Hp Hanswer. unfold del_prof. split.
    + run_gateway. subst o. reflexivity.
    + unfold bind at 1. unfold lift at 1. rewrite Hp.
      run_gateway. subst o. cbn. rewrite <- !app_assoc. reflexivity.
Qed.



End HandlerFacts.

(** ** Counterexamples and instances on stub services *)

(** C1, counterexample: against a service that refuses every call with
    a transport error, [get_organizations] and [get_networks] do not
    return an empty collection: the error leaves the gateway. *)
Lemma cached_methods_let_errors_through :
  answer (failing_stub "401 Unauthorized") (wire_contract GetOrganizations) tt
  = Raise (APIError "401 Unauthorized") /\
  is_list GetOrganizations = true /\
  fst (get_organizations (failing_stub "401 Unauthorized") (init_state tt))
  = Raise (APIError "401 Unauthorized") /\
  fst (get_networks (failing_stub "401 Unauthorized") org_one (init_state tt))
  = Raise (APIError "401 Unauthorized") /\
  ~ returns (fst (get_organizations (failing_stub "401 Unauthorized")
                    (init_state tt))).
Proof.
  repeat split; try reflexivity.
  intros [v Hv]. vm_compute in Hv. discriminate Hv.
Qed.

(** C1 at a refusing service: a list method, a mutation and a cached
    method whose entry has expired. *)
Lemma transport_errors_caught_unless_cached_witness :
  fst (list_profiles (failing_stub "404 Not Found") org_one (init_state tt))
  = Return (PList []) /\
  fst (create_dns_record (failing_stub "404 Not Found") org_one (PStr "p1")
         (PStr "db.local") (PStr "10.0.0.5") (init_state tt))
  = Return (PDict [("error", PStr "404 Not Found")]) /\
  fst (get_networks (failing_stub "404 Not Found") org_one later_state)
  = Raise (APIError "404 Not Found").
Proof.
  split; [| split].
  - apply (proj1 (transport_errors_caught_unless_cached unit
                    (failing_stub "404 Not Found") (ListProfiles org_one)
                    (init_state tt) "404 Not Found" eq_refl) eq_refl).
  - apply (proj1 (transport_errors_caught_unless_cached unit
                    (failing_stub "404 Not Found")
                    (CreateDnsRecord org_one (PStr "p1") (PStr "db.local")
                       (PStr "10.0.0.5"))
                    (init_state tt) "404 Not Found" eq_refl) eq_refl).
  - apply (proj2 (proj2 (transport_errors_caught_unless_cached unit
                           (failing_stub "404 Not Found") (GetNetworks org_one)
                           later_state "404 Not Found" eq_refl))
             org_one eq_refl).
    intros e He. vm_compute in He. injection He as <-. vm_compute.
    discriminate.
Defined.

(** C2 at an envelope with two items, an envelope without [items] and
    a refusing service. *)
Lemma list_X_unwraps_items_witness :
  fst (list_dns_records
         (constant_stub (PDict [("items", PList [PStr "a"; PStr "b"])]))
         org_one (init_state tt))
  = Return (PList [PStr "a"; PStr "b"]) /\
  fst (list_assignments (constant_stub (PDict [("meta", PNone)]))
         org_one (init_state tt))
  = Return (PList []) /\
  fst (list_profiles (failing_stub "404 Not Found") org_one (init_state tt))
  = Return (PList []).
Proof.
  split; [| split].
  - apply (proj1 (list_X_unwraps_items unit
                    (constant_stub (PDict [("items", PList [PStr "a"; PStr "b"])]))
                    (ListDnsRecords org_one) (init_state tt) eq_refl)
             [("items", PList [PStr "a"; PStr "b"])]
             (PList [PStr "a"; PStr "b"]) eq_refl eq_refl).
  - apply (proj1 (proj2 (list_X_unwraps_items unit
                           (constant_stub (PDict [("meta", PNone)]))
                           (ListAssignments org_one) (init_state tt) eq_refl))
             [("meta", PNone)] eq_refl eq_refl).
  - apply (proj2 (proj2 (list_X_unwraps_items unit
                           (failing_stub "404 Not Found")
                           (ListProfiles org_one) (init_state tt) eq_refl))
             "404 Not Found" eq_refl).
Defined.

(** C3, counterexample: a transport error whose text is empty gives an
    [error] field that holds the empty message. *)
Lemma create_profile_empty_error_text :
  answer (failing_stub "") (wire_contract (CreateProfile org_one (PStr "Eng"))) tt
  = Raise (APIError "") /\
  fst (create_profile (failing_stub "") org_one (PStr "Eng") (init_state tt))
  = Return (PDict [("error", PStr "")]) /\
  ~ (exists message,
        fst (create_profile (failing_stub "") org_one (PStr "Eng")
               (init_state tt))
        = Return (PDict [("error", PStr message)]) /\ message <> "").
Proof.
  split; [reflexivity | split; [reflexivity |]].
  intros (message & Hres & Hne). vm_compute in Hres.
  injection Hres as <-. apply Hne. reflexivity.
Qed.

(** C3 at a service that returns the created profile and at one that
    refuses. *)
Lemma create_profile_result_witness :
  fst (create_profile (constant_stub eng_profile) org_one (PStr "Eng")
         (init_state tt))
  = Return eng_profile /\
  fst (create_profile (failing_stub "400 Bad Request") org_one (PStr "Eng")
         (init_state tt))
  = Return (PDict [("error", PStr "400 Bad Request")]).
Proof.
  split.
  - apply (proj1 (create_profile_result unit (constant_stub eng_profile)
                    org_one (PStr "Eng") (init_state tt)) eng_profile eq_refl).
  - apply (proj1 (proj2 (create_profile_result unit
                           (failing_stub "400 Bad Request")
                           org_one (PStr "Eng") (init_state tt))
                    "400 Bad Request" eq_refl)).
Defined.

(** C4, counterexample: when the remote operation answers a delete with
    a reply of its own, the method returns that reply: a success that is
    neither the empty dict nor an error value. *)
Lemma delete_returns_remote_reply :
  let reply := PDict [("items", PList [PDict [("assignmentId", PStr "a1")]])] in
  let res := fst (remove_assignment (constant_stub reply) org_one (PStr "a1")
                    (init_state tt)) in
  res = Return reply /\
  res <> Return (PDict []) /\
  (forall message, res <> Return (PDict [("error", message)])).
Proof.
  cbv zeta. split; [reflexivity | split].
  - vm_compute. discriminate.
  - intros message. vm_compute. discriminate.
Qed.

(** C4 at a service that answers nothing, one that answers an envelope
    and one that refuses. *)
Lemma delete_result_witness :
  fst (delete_profile (constant_stub PNone) org_one (PStr "p1") (init_state tt))
  = Return (PDict []) /\
  fst (remove_assignment (constant_stub (PDict [("items", PList [])])) org_one
         (PStr "a1") (init_state tt))
  = Return (PDict [("items", PList [])]) /\
  fst (delete_dns_record (failing_stub "404 Not Found") org_one (PStr "r1")
         (init_state tt))
  = Return (PDict [("error", PStr "404 Not Found")]).
Proof.
  split; [| split].
  - apply (proj1 (delete_result unit (constant_stub PNone)
                    (DeleteProfile org_one (PStr "p1")) (init_state tt) eq_refl)
             eq_refl).
  - apply (proj1 (proj2 (delete_result unit
                           (constant_stub (PDict [("items", PList [])]))
                           (RemoveAssignment org_one (PStr "a1")) (init_state tt)
                           eq_refl))
             (PDict [("items", PList [])]) eq_refl).
    discriminate.
  - apply (proj1 (proj2 (proj2 (delete_result unit
                                  (failing_stub "404 Not Found")
                                  (DeleteDnsRecord org_one (PStr "r1"))
                                  (init_state tt) eq_refl)))
             "404 Not Found" eq_refl).
Defined.

(** C6, counterexample: two calls one second apart against a service
    that refuses issue two remote calls and the first returns no value;
    and of three calls one second apart against a service that answers,
    the second and the third together issue no remote call at all. *)
Lemma organizations_pair_not_always_one_call :
  (let first := get_organizations (failing_stub "503 Service Unavailable")
                  (with_clock 0 (init_state tt)) in
   let second := get_organizations (failing_stub "503 Service Unavailable")
                   (with_clock 1 (snd first)) in
   1 - 0 < 86400 /\
   ~ returns (fst first) /\
   sent (snd second) = [("organizations.getOrganizations", []);
                        ("organizations.getOrganizations", [])]) /\
  (let warm := snd (get_organizations counting_stub
                      (with_clock 0 (init_state 0%nat))) in
   let first := get_organizations counting_stub (with_clock 1 warm) in
   let second := get_organizations counting_stub (with_clock 2 (snd first)) in
   2 - 1 < 86400 /\
   sent (snd second) = sent warm).
Proof.
  cbv zeta. split.
  - split; [lia | split; [| reflexivity]].
    intros [v Hv]. vm_compute in Hv. discriminate Hv.
  - split; [lia | reflexivity].
Qed.

(** C6 at a second call 100 seconds and 90000 seconds after the first. *)
Lemma organizations_cache_window_witness :
  (let first := get_organizations counting_stub (with_clock 0 (init_state 0%nat)) in
   let second := get_organizations counting_stub (with_clock 100 (snd first)) in
   sent (snd second) = [("organizations.getOrganizations", [])] /\
   fst second = Return (PList [PInt 0])) /\
  (let first := get_organizations counting_stub (with_clock 0 (init_state 0%nat)) in
   let second := get_organizations counting_stub (with_clock 90000 (snd first)) in
   sent (snd second) = [("organizations.getOrganizations", []);
                        ("organizations.getOrganizations", [])]).
Proof.
  split.
  - pose proof (organizations_cache_window nat counting_stub
                  (init_state 0%nat) 0 100) as T.
    cbv zeta in T.
    destruct T as [T _]; [intros e H; discriminate H |].
    apply (T (PList [PInt 0])); [reflexivity | lia].
  - pose proof (organizations_cache_window nat counting_stub
                  (init_state 0%nat) 0 90000) as T.
    cbv zeta in T.
    destruct T as [_ [T _]]; [intros e H; discriminate H |].
    apply T. lia.
Defined.


(** C8 at the example of the specification: a record of profile [p1]
    beside the profile [Eng], and an assignment whose profile [p9] is
    not among the fetched ones. *)
Lemma lookup_resolves_or_unknown_witness :
  exists prof_lookup net_lookup,
    dict_comprehension "profileId" "name" (PList [eng_profile]) = Return prof_lookup /\
    dict_comprehension "id" "name" (PList [hq_network]) = Return net_lookup /\
    record_profile prof_lookup (record_of "p1") = Return (PStr "Eng", PStr "p1") /\
    assignment_names net_lookup prof_lookup hq_assignment
    = Return ((PStr "HQ", PStr "N_1"), (PStr "Unknown", PStr "p9")).
Proof.
  destruct (lookup_resolves_or_unknown [eng_profile] [hq_network]
              (record_of "p1") (PDict [("id", PStr "p1")]) (PStr "p1")
              hq_assignment (PDict [("id", PStr "N_1")])
              (PDict [("id", PStr "p9")]) (PStr "N_1") (PStr "p9")
              eq_refl eq_refl eq_refl eq_refl eq_refl eq_refl eq_refl
              eq_refl eq_refl eq_refl eq_refl)
    as (prof_lookup & net_lookup & Hp & Hn & _ & Hmatch & _ & Hassign).
  exists prof_lookup, net_lookup.
  split; [exact Hp | split; [exact Hn | split]].
  - apply (Hmatch [] eng_profile [] (PStr "p1") (PStr "Eng"));
      reflexivity.
  - destruct Hassign as (n_name & p_name & Hrow & Hnet & _ & _ & Hunknown).
    rewrite Hrow.
    rewrite (Hnet [] hq_network [] (PStr "N_1") (PStr "HQ")
               eq_refl eq_refl eq_refl eq_refl eq_refl).
    rewrite (Hunknown eq_refl). reflexivity.
Defined.

(** The record that references [p9], computed. *)
Lemma lookup_unknown_for_dangling_reference :
  exists prof_lookup,
    dict_comprehension "profileId" "name" (PList [eng_profile]) = Return prof_lookup /\
    record_profile prof_lookup (record_of "p9") = Return (PStr "Unknown", PStr "p9").
Proof.
  eexists. split; reflexivity.
Qed.

(** C10 at the empty dict. *)
Lemma success_tests_asymmetric_witness :
  delete_test (PDict []) = Return true /\
  create_test (PDict []) = Return false /\
  ui (snd (add_prof_btn (constant_stub (PDict [])) org_one (PStr "Eng")
             (init_state tt)))
  = [Toast (ToastError (PStr "Unknown"))] /\
  ui (snd (del_prof (constant_stub PNone) org_one eng_profile (init_state tt)))
  = [Toast ToastProfileDeleted; Sleep 1; Rerun].
Proof.
  split; [| split; [| split]].
  - apply (proj1 (success_tests_asymmetric unit (constant_stub PNone))
             (PDict []) eq_refl).
  - apply (proj1 (success_tests_asymmetric unit (constant_stub PNone))
             (PDict []) eq_refl).
  - apply (proj1 (proj2 (proj2 (proj2
             (success_tests_asymmetric unit (constant_stub (PDict []))))))
             org_one (PStr "Eng") (init_state tt) eq_refl eq_refl).
  - apply (proj2 (proj2 (proj2 (proj2
             (success_tests_asymmetric unit (constant_stub PNone)))))
             org_one eng_profile (PStr "p1") (init_state tt) eq_refl eq_refl).
Defined.



(** * Further properties of the logic layer *)

Section SessionFacts.

Variable W : Type.
Variable remote : string -> list pyval -> W -> outcome pyval * W.

(** The whole state after a method that is not cached. *)
Lemma uncached_run (r : request) (s : state W) :
  is_cached r = false ->
  snd (perform remote r s)
  = mkState (S (API_CALL_COUNTER s))
      (log s ++
       INFO_api_call (S (API_CALL_COUNTER s)) (fst (wire_contract r))
       :: error_records r (answer remote (wire_contract r) (world s)))
      (cache s) (clock s)
      (snd (remote (fst (wire_contract r)) (snd (wire_contract r)) (world s)))
      (sent s ++ [wire_contract r]) (ui s).
Proof.
  intros Hr.
  destruct r; try discriminate Hr; run_gateway;
    destruct o as [v | [e | c]]; try destruct v;
    cbn; rewrite <- ?app_assoc; reflexivity.
Qed.

Lemma fetch_counter endpoint args (s : state W) :
  API_CALL_COUNTER (snd (fetch remote endpoint args s)) = S (API_CALL_COUNTER s).
Proof.
  cbv [fetch bind _increment_counter logger dashboard world].
  destruct (remote endpoint args _); reflexivity.
Qed.

(** A cached method either answers from the store and changes nothing,
    or counts and issues its one call. *)
Lemma cached_step ttl func endpoint args (s : state W) :
  let s' := snd (cache_data ttl func args (fetch remote endpoint args) s) in
  s' = s \/
  (API_CALL_COUNTER s' = S (API_CALL_COUNTER s) /\
   sent s' = sent s ++ [(endpoint, args)]).
Proof.
  cbv zeta.
  assert (Hmiss :
    API_CALL_COUNTER (snd (cache_miss func args (fetch remote endpoint args) s))
    = S (API_CALL_COUNTER s) /\
    sent (snd (cache_miss func args (fetch remote endpoint args) s))
    = sent s ++ [(endpoint, args)]).
  { pose proof (cache_miss_fetch W remote func endpoint args s) as (_ & Hs & _).
    cbv zeta in Hs. split; [| exact Hs].
    unfold cache_miss. pose proof (fetch_counter endpoint args s) as Hc.
    destruct (fetch remote endpoint args s) as [[v | e] s']; exact Hc. }
  unfold cache_data.
  destruct (cache_lookup func args (cache s)) as [e | ]; [| right; exact Hmiss].
  destruct (clock s <? entry_stored e + ttl); [left; reflexivity | right; exact Hmiss].
Qed.

Lemma perform_counts (r : request) (s : state W) :
  (API_CALL_COUNTER (snd (perform remote r s)) + length (sent s)
   = API_CALL_COUNTER s + length (sent (snd (perform remote r s))))%nat.
Proof.
  destruct (is_cached r) eqn:Hr.
  - assert (Hstep :
      snd (perform remote r s) = s \/
      (API_CALL_COUNTER (snd (perform remote r s)) = S (API_CALL_COUNTER s) /\
       sent (snd (perform remote r s)) = sent s ++ [wire_contract r])).
    { destruct r; try discriminate Hr; cbn [perform wire_contract].
      - rewrite get_organizations_unfold. apply cached_step.
      - rewrite get_networks_unfold. apply cached_step. }
    destruct Hstep as [-> | [Hc Hs]]; [reflexivity |].
    rewrite Hc, Hs, length_app. cbn. lia.
  - rewrite (uncached_run r s Hr). cbn [API_CALL_COUNTER sent].
    rewrite length_app. cbn. lia.
Qed.

(** X1: over any session, [API_CALL_COUNTER] grows by exactly the number
    of SDK calls that left the process; a call answered from the cache
    counts nothing.  From a fresh process the counter is the number of
    calls issued. *)
Theorem counter_counts_remote_calls (rs : list (Z * request)) (s : state W) :
  (API_CALL_COUNTER (perform_all remote rs s) + length (sent s)
   = API_CALL_COUNTER s + length (sent (perform_all remote rs s)))%nat /\
  (forall w,
      API_CALL_COUNTER (perform_all remote rs (init_state w))
      = length (sent (perform_all remote rs (init_state w)))).
Proof.
  assert (Hgen : forall s0 : state W,
    (API_CALL_COUNTER (perform_all remote rs s0) + length (sent s0)
     = API_CALL_COUNTER s0 + length (sent (perform_all remote rs s0)))%nat).
  { induction rs as [ | [t r] later IH ]; intros s0; cbn [perform_all].
    - reflexivity.
    - specialize (IH (snd (perform remote r (with_clock t s0)))).
      pose proof (perform_counts r (with_clock t s0)) as Hstep.
      cbn [with_clock API_CALL_COUNTER sent] in Hstep. lia. }
  split; [apply Hgen |].
  intros w. specialize (Hgen (init_state w)). cbn in Hgen. lia.
Qed.

Lemma uncached_session_keeps_cache (rs : list (Z * request)) (s : state W) :
  forallb (fun tr => negb (is_cached (snd tr))) rs = true ->
  cache (perform_all remote rs s) = cache s.
Proof.
  revert s. induction rs as [ | [t r] later IH ]; intros s Hrs;
    cbn [perform_all].
  - reflexivity.
  - cbn [forallb snd] in Hrs. apply Bool.andb_true_iff in Hrs as [Hr Hlater].
    apply Bool.negb_true_iff in Hr.
    rewrite (IH _ Hlater), (uncached_run r (with_clock t s) Hr).
    reflexivity.
Qed.

(** X2: no list, create, assign or delete method touches the cache
    store.  Whatever such requests the page performs, a cached network
    list that has not expired is still what [get_networks] returns, and
    no remote call is made for it. *)
Theorem mutations_leave_cache_alone
    (rs : list (Z * request)) (organization_id : pyval) (t : Z)
    (e : cache_entry) (s : state W) :
  forallb (fun tr => negb (is_cached (snd tr))) rs = true ->
  cache_lookup "ProjectLogic.get_networks" [organization_id] (cache s) = Some e ->
  t < entry_stored e + 3600 ->
  let s' := perform_all remote rs s in
  cache s' = cache s /\
  get_networks remote organization_id (with_clock t s')
  = (Return (entry_value e), with_clock t s').
Proof.
  intros Hrs He Hlive s'.
  pose proof (uncached_session_keeps_cache rs s Hrs) as Hcache.
  split; [exact Hcache |].
  rewrite get_networks_unfold. apply cache_data_hit.
  - cbn [with_clock cache]. fold s' in Hcache. rewrite Hcache. exact He.
  - exact Hlive.
Qed.

(** X3: the methods handle [meraki.APIError] only.  Any other exception
    of the remote call leaves the method as it came, and no ERROR
    record is written for it. *)
Theorem other_exceptions_propagate (r : request) (s : state W) (cls : string) :
  is_cached r = false ->
  answer remote (wire_contract r) (world s) = Raise (Exception cls) ->
  fst (perform remote r s) = Raise (Exception cls) /\
  log (snd (perform remote r s))
  = log s ++ [INFO_api_call (S (API_CALL_COUNTER s)) (fst (wire_contract r))].
Proof.
  intros Hr Hanswer. split.
  - destruct r; try discriminate Hr; run_gateway; subst o; reflexivity.
  - rewrite (uncached_run r s Hr), Hanswer. reflexivity.
Qed.

(** X4: a [list_X] method whose remote call returns something that is
    not an object (nothing, a bare list, a string) raises
    [AttributeError]: the reply has no [get]. *)
Theorem list_X_needs_an_envelope (r : request) (s : state W) (reply : pyval) :
  is_list_X r = true ->
  answer remote (wire_contract r) (world s) = Return reply ->
  (forall d, reply <> PDict d) ->
  fst (perform remote r s) = Raise (Exception "AttributeError").
Proof.
  intros Hr Hanswer Hshape.
  destruct r; try discriminate Hr; run_gateway; subst o;
    destruct reply; try reflexivity;
    exfalso; eapply Hshape; reflexivity.
Qed.

(** X5: a method that is not cached writes one INFO record, carrying
    the new value of the counter and the SDK method, before it calls;
    when the call raises a transport error it then writes one ERROR
    record with its own name and the text of the error, and otherwise
    nothing more. *)
Theorem log_of_a_call (r : request) (s : state W) :
  is_cached r = false ->
  log (snd (perform remote r s))
  = log s ++
    INFO_api_call (S (API_CALL_COUNTER s)) (fst (wire_contract r))
    :: match answer remote (wire_contract r) (world s) with
       | Raise (APIError str_e) => [ERROR_sdk (method_name r) str_e]
       | _ => []
       end.
Proof.
  intros Hr. rewrite (uncached_run r s Hr). reflexivity.
Qed.

End SessionFacts.

Section CacheMore.

Variable W : Type.
Variable remote : string -> list pyval -> W -> outcome pyval * W.

(** The store after a cached method: as before, or with the entry of
    this very call put in. *)
Lemma cache_after_cached_call ttl func endpoint args (s : state W) :
  let s' := snd (cache_data ttl func args (fetch remote endpoint args) s) in
  cache s' = cache s \/
  exists v, cache s' = cache_store (mkEntry func args v (clock s)) (cache s).
Proof.
  cbv zeta.
  assert (Hmiss :
    cache (snd (cache_miss func args (fetch remote endpoint args) s)) = cache s \/
    exists v, cache (snd (cache_miss func args (fetch remote endpoint args) s))
              = cache_store (mkEntry func args v (clock s)) (cache s)).
  { pose proof (cache_miss_fetch W remote func endpoint args s)
      as (_ & _ & _ & Hc).
    cbv zeta in Hc. rewrite Hc.
    destruct (fst (cache_miss func args (fetch remote endpoint args) s))
      as [v | x]; [right; exists v; reflexivity | left; reflexivity]. }
  unfold cache_data.
  destruct (cache_lookup func args (cache s)) as [e | ]; [| exact Hmiss].
  destruct (clock s <? entry_stored e + ttl); [left; reflexivity | exact Hmiss].
Qed.

(** X6: the organizations and the networks share no cache entry.  A
    call of [get_networks], for any organization, leaves the stored
    organizations as they are, and a call of [get_organizations] leaves
    the stored networks of every organization as they are. *)
Theorem organizations_and_networks_cached_apart
    (organization_id other : pyval) (s : state W) :
  cache_lookup "ProjectLogic.get_organizations" []
    (cache (snd (get_networks remote organization_id s)))
  = cache_lookup "ProjectLogic.get_organizations" [] (cache s) /\
  cache_lookup "ProjectLogic.get_networks" [other]
    (cache (snd (get_organizations remote s)))
  = cache_lookup "ProjectLogic.get_networks" [other] (cache s).
Proof.
  split.
  - rewrite get_networks_unfold.
    destruct (cache_after_cached_call 3600 "ProjectLogic.get_networks"
                "organizations.getOrganizationNetworks" [organization_id] s)
      as [-> | [v ->]]; [reflexivity |].
    apply cache_lookup_store_other. reflexivity.
  - rewrite get_organizations_unfold.
    destruct (cache_after_cached_call 86400 "ProjectLogic.get_organizations"
                "organizations.getOrganizations" [] s)
      as [-> | [v ->]]; [reflexivity |].
    apply cache_lookup_store_other. reflexivity.
Qed.

(** X7: a fetch that raises is not remembered.  When a call of
    [get_organizations] has to fetch and the remote call raises, the
    store stays as it was and the next call, however soon, issues the
    remote call again. *)
Theorem failed_fetch_is_retried (s : state W) (t1 t2 : Z) (x : exn) :
  let call := ("organizations.getOrganizations", @nil pyval) in
  let first := get_organizations remote (with_clock t1 s) in
  let second := get_organizations remote (with_clock t2 (snd first)) in
  (forall e,
      cache_lookup "ProjectLogic.get_organizations" [] (cache s) = Some e ->
      entry_stored e + 86400 <= t1) ->
  t1 <= t2 ->
  fst (remote "organizations.getOrganizations" [] (world s)) = Raise x ->
  fst first = Raise x /\
  cache (snd first) = cache s /\
  sent (snd second) = sent s ++ [call; call] /\
  fst second
  = fst (remote "organizations.getOrganizations" [] (world (snd first))).
Proof.
  intros call first second Hstale Hlater Hraise.
  assert (Hfirst : first = cache_miss "ProjectLogic.get_organizations" []
                             (fetch remote "organizations.getOrganizations" [])
                             (with_clock t1 s)).
  { unfold first. rewrite get_organizations_unfold.
    apply cache_data_miss. exact Hstale. }
  pose proof (cache_miss_fetch W remote "ProjectLogic.get_organizations"
                "organizations.getOrganizations" [] (with_clock t1 s))
    as (Ho & Hsent & _ & Hcache).
  cbv zeta in Ho, Hsent, Hcache.
  rewrite <- Hfirst in Ho, Hsent, Hcache.
  cbn [with_clock sent clock cache world] in Ho, Hsent, Hcache.
  rewrite Hraise in Ho. rewrite Ho in Hcache.
  assert (Hsecond : second = cache_miss "ProjectLogic.get_organizations" []
                               (fetch remote "organizations.getOrganizations" [])
                               (with_clock t2 (snd first))).
  { unfold second. rewrite get_organizations_unfold.
    apply cache_data_miss. cbn [with_clock cache clock]. rewrite Hcache.
    intros e He. specialize (Hstale e He). lia. }
  pose proof (cache_miss_fetch W remote "ProjectLogic.get_organizations"
                "organizations.getOrganizations" []
                (with_clock t2 (snd first))) as (Ho2 & Hsent2 & _).
  cbv zeta in Ho2, Hsent2. rewrite <- Hsecond in Ho2, Hsent2.
  cbn [with_clock sent world] in Ho2, Hsent2.
  repeat split; try assumption.
  rewrite Hsent2, Hsent, <- app_assoc. reflexivity.
Qed.

End CacheMore.

(** * Further properties of the page *)

Section ButtonFacts.

Variable W : Type.
Variable remote : string -> list pyval -> W -> outcome pyval * W.

(** X8: a transport error during a delete or a create reaches the user
    word for word.  The handler returns, shows the error toast with the
    text of the error and does not rerun the page. *)
Theorem handlers_show_the_transport_error
    (org_id p profileId new_prof_name : pyval) (str_e : string) (s : state W) :
  py_subscript p "profileId" = Return profileId ->
  truthy new_prof_name = true ->
  (answer remote (wire_contract (DeleteProfile org_id profileId)) (world s)
   = Raise (APIError str_e) ->
   fst (del_prof remote org_id p s) = Return tt /\
   ui (snd (del_prof remote org_id p s))
   = ui s ++ [Toast (ToastError (PStr str_e))]) /\
  (answer remote (wire_contract (CreateProfile org_id new_prof_name)) (world s)
   = Raise (APIError str_e) ->
   fst (add_prof_btn remote org_id new_prof_name s) = Return tt /\
   ui (snd (add_prof_btn remote org_id new_prof_name s))
   = ui s ++ [Toast (ToastError (PStr str_e))]).
Proof.
  intros Hp Hname. split; intros Hanswer.
  - unfold del_prof. unfold bind at 1 3. unfold lift at 1 4. rewrite Hp.
    split; run_gateway; subst o; reflexivity.
  - unfold add_prof_btn. rewrite Hname.
    split; run_gateway; subst o; reflexivity.
Qed.

Lemma state_eta (s : state W) :
  mkState (API_CALL_COUNTER s) (log s) (cache s) (clock s)
          (world s) (sent s) (ui s) = s.
Proof. destruct s; reflexivity. Qed.

Lemma only_ui_lift {A : Type} (o : outcome A) : only_ui (W:=W) (lift o).
Proof.
  intros s. exists []. cbn. rewrite app_nil_r. symmetry. apply state_eta.
Qed.

Lemma only_ui_st_event (e : ui_event) : only_ui (W:=W) (st_event e).
Proof. intros s. exists [e]. reflexivity. Qed.

Lemma only_ui_bind {A B : Type} (c : M (state W) A) (k : A -> M (state W) B) :
  only_ui c -> (forall a, only_ui (k a)) -> only_ui (bind c k).
Proof.
  intros Hc Hk s. unfold bind.
  destruct (Hc s) as [ev1 H1].
  destruct (c s) as [[a | x] s1]; cbn [snd] in H1; subst s1.
  - destruct (Hk a (mkState (API_CALL_COUNTER s) (log s) (cache s) (clock s)
                      (world s) (sent s) (ui s ++ ev1))) as [ev2 H2].
    exists (ev1 ++ ev2). rewrite H2. cbn. rewrite app_assoc. reflexivity.
  - exists ev1. reflexivity.
Qed.

(** What follows the method call in the add button. *)
Lemma add_prof_btn_rest_only_ui (new_prof_name res : pyval) :
  only_ui (W:=W)
    (ok <- lift (create_test res) ;;
     if ok
     then st_event (Toast (ToastProfileCreated new_prof_name)) ;;
          st_event (SessionStateDel "new_prof_name") ;;
          st_event (Sleep 1) ;;
          st_event Rerun
     else detail <- lift (py_get res "error" (PStr "Unknown")) ;;
          st_event (Toast (ToastError detail))).
Proof.
  apply only_ui_bind; [apply only_ui_lift |].
  intros [ | ].
  - repeat (apply only_ui_bind; [apply only_ui_st_event | intros _]).
    apply only_ui_st_event.
  - apply only_ui_bind; [apply only_ui_lift | intros detail].
    apply only_ui_st_event.
Qed.

(** X9: the add button calls the remote service exactly when a name was
    typed.  With a name it issues the one create call and otherwise
    only shows things; with an empty name nothing leaves the process,
    the counter stands still and the user is asked for a name. *)
Theorem add_prof_btn_calls_iff_named (org_id new_prof_name : pyval) (s : state W) :
  let s' := snd (add_prof_btn remote org_id new_prof_name s) in
  sent s'
  = sent s ++
    (if truthy new_prof_name
     then [("appliance.createOrganizationApplianceDnsLocalProfile",
            [org_id; new_prof_name])]
     else []) /\
  API_CALL_COUNTER s'
  = (if truthy new_prof_name then S (API_CALL_COUNTER s) else API_CALL_COUNTER s) /\
  cache s' = cache s /\
  (truthy new_prof_name = false ->
   world s' = world s /\ log s' = log s /\
   ui s' = ui s ++ [Toast ToastEnterProfileName]).
Proof.
  cbv zeta. unfold add_prof_btn.
  destruct (truthy new_prof_name).
  - match goal with
    | |- context [snd (?handler s)] =>
        assert (Hafter : exists events l w,
                  snd (handler s)
                  = mkState (S (API_CALL_COUNTER s)) l (cache s) (clock s) w
                      (sent s ++ [wire_contract (CreateProfile org_id new_prof_name)])
                      (ui s ++ events))
    end.
    { unfold bind at 1.
      pose proof (uncached_run W remote (CreateProfile org_id new_prof_name) s
                    eq_refl) as Hrun.
      cbn [perform] in Hrun.
      destruct (create_profile remote org_id new_prof_name s) as [[res | x] s1];
        cbn [snd] in Hrun.
      - destruct (add_prof_btn_rest_only_ui new_prof_name res s1)
          as [events Hrest].
        rewrite Hrest, Hrun. cbn. do 3 eexists. reflexivity.
      - rewrite Hrun. cbn. exists []. do 2 eexists. rewrite app_nil_r.
        reflexivity. }
    destruct Hafter as (events & l & w & ->). cbn.
    split; [reflexivity | split; [reflexivity | split; [reflexivity |]]].
    intros H; discriminate H.
  - cbn. rewrite app_nil_r.
    split; [reflexivity | split; [reflexivity | split; [reflexivity |]]].
    intros _. repeat split; reflexivity.
Qed.

(** X10: what the add button shows for an object reply.  An object with
    an [error] field shows the error toast with that field, also when
    the remote call returned it without raising; an object with fields
    but no [error] shows the success toast, clears the input and reruns;
    the empty object shows the error toast with ["Unknown"]. *)
Theorem add_prof_btn_on_object_reply
    (org_id new_prof_name : pyval) (d : list (string * pyval)) (s : state W) :
  truthy new_prof_name = true ->
  answer remote (wire_contract (CreateProfile org_id new_prof_name)) (world s)
  = Return (PDict d) ->
  fst (add_prof_btn remote org_id new_prof_name s) = Return tt /\
  ui (snd (add_prof_btn remote org_id new_prof_name s))
  = ui s ++
    match dict_lookup "error" d with
    | Some detail => [Toast (ToastError detail)]
    | None =>
        if truthy (PDict d)
        then [Toast (ToastProfileCreated new_prof_name);
              SessionStateDel "new_prof_name"; Sleep 1; Rerun]
        else [Toast (ToastError (PStr "Unknown"))]
    end.
Proof.
  intros Hname Hanswer. unfold add_prof_btn. rewrite Hname.
  split; run_gateway; subst o;
    unfold create_test, py_in, py_get, truthy;
    (destruct d as [ | kv d ]; [reflexivity |]);
    destruct (dict_lookup "error" (kv :: d)); cbn;
    rewrite <- ?app_assoc; reflexivity.
Qed.

(** X11: a create reply that is falsy and not an object (nothing, the
    empty list, the empty string, zero, false) crashes the add button:
    the create call has been issued, then [res.get] raises
    [AttributeError] and nothing is shown. *)
Theorem add_prof_btn_crashes_on_null_reply
    (org_id new_prof_name reply : pyval) (s : state W) :
  truthy new_prof_name = true ->
  answer remote (wire_contract (CreateProfile org_id new_prof_name)) (world s)
  = Return reply ->
  truthy reply = false ->
  (forall d, reply <> PDict d) ->
  fst (add_prof_btn remote org_id new_prof_name s)
  = Raise (Exception "AttributeError") /\
  ui (snd (add_prof_btn remote org_id new_prof_name s)) = ui s /\
  sent (snd (add_prof_btn remote org_id new_prof_name s))
  = sent s ++ [wire_contract (CreateProfile org_id new_prof_name)].
Proof.
  intros Hname Hanswer Hfalsy Hshape. unfold add_prof_btn. rewrite Hname.
  assert (Htest : create_test reply = Return false)
    by (unfold create_test; rewrite Hfalsy; reflexivity).
  assert (Hget : py_get reply "error" (PStr "Unknown")
                 = Raise (Exception "AttributeError")).
  { destruct reply; try reflexivity. exfalso. eapply Hshape. reflexivity. }
  repeat split; run_gateway; subst o; cbn [fst snd];
    rewrite Htest; cbn [fst snd]; rewrite Hget; reflexivity.
Qed.

(** X12: what the delete button does with the result of
    [delete_profile].  An object reply without an [error] field, empty
    or not, shows the success toast and reruns; an object reply with an
    [error] field shows the error toast with that field; a reply that is
    [True] or a number other than zero raises [TypeError], since the
    [in] test cannot search it. *)
Theorem del_prof_on_reply
    (org_id p profileId reply : pyval) (s : state W) :
  py_subscript p "profileId" = Return profileId ->
  answer remote (wire_contract (DeleteProfile org_id profileId)) (world s)
  = Return reply ->
  (forall d, reply = PDict d ->
     fst (del_prof remote org_id p s) = Return tt /\
     ui (snd (del_prof remote org_id p s))
     = ui s ++
       match dict_lookup "error" d with
       | Some detail => [Toast (ToastError detail)]
       | None => [Toast ToastProfileDeleted; Sleep 1; Rerun]
       end) /\
  (reply = PBool true \/ (exists n, reply = PInt n /\ n <> 0) ->
   fst (del_prof remote org_id p s) = Raise (Exception "TypeError") /\
   ui (snd (del_prof remote org_id p s)) = ui s).
Proof.
  intros Hp Hanswer. unfold del_prof.
  unfold bind at 1. unfold lift at 1. rewrite Hp.
  split.
  - intros d ->.
    split; run_gateway; subst o;
      unfold or_empty_dict, delete_test, py_in, py_subscript, truthy;
      (destruct d as [ | kv d ];
       [ cbn; rewrite <- ?app_assoc; reflexivity |]);
      destruct (dict_lookup "error" (kv :: d)); cbn;
      rewrite <- ?app_assoc; reflexivity.
  - intros [-> | [n [-> Hn]]].
    + split; run_gateway; subst o; reflexivity.
    + apply Z.eqb_neq in Hn.
      split; run_gateway; subst o; unfold or_empty_dict, delete_test, truthy;
        rewrite Hn; reflexivity.
Qed.

End ButtonFacts.

(** ** Dicts of the page *)

Lemma key_eqb_refl (k : pyval) : hashable k = true -> key_eqb k k = true.
Proof.
  destruct k as [ | b | n | x | | ]; cbn; intros H; try discriminate H.
  - reflexivity.
  - destruct b; reflexivity.
  - apply Z.eqb_refl.
  - apply String.eqb_refl.
Qed.

Lemma key_eqb_str (a : string) (k : pyval) :
  key_eqb (PStr a) k = true -> k = PStr a.
Proof.
  destruct k; cbn; intros H; try discriminate H.
  apply String.eqb_eq in H. congruence.
Qed.

Lemma pydict_find_In (d : pydict) (k v : pyval) :
  pydict_find d k = Some v ->
  exists k', In (k', v) d /\ key_eqb k k' = true.
Proof.
  induction d as [ | [k0 v0] d IH ]; cbn; [discriminate |].
  destruct (key_eqb k k0) eqn:E.
  - intros H. injection H as ->. exists k0. split; [left; reflexivity | exact E].
  - intros H. destruct (IH H) as (k' & Hin & Hk). exists k'. auto.
Qed.

Lemma pydict_find_key (d : pydict) (k v : pyval) :
  In (k, v) d -> key_eqb k k = true -> pydict_find d k <> None.
Proof.
  induction d as [ | [k0 v0] d IH ]; cbn; [tauto |].
  intros [H | H] Hk.
  - injection H as -> ->. rewrite Hk. discriminate.
  - destruct (key_eqb k k0); [discriminate | exact (IH H Hk)].
Qed.

Lemma pydict_store_In (d : pydict) (k v k0 v0 : pyval) :
  In (k0, v0) (pydict_store d k v) ->
  In (k0, v0) d \/
  (v0 = v /\ (k0 = k \/ (key_eqb k k0 = true /\ In k0 (pydict_keys d)))).
Proof.
  induction d as [ | [k1 v1] d IH ]; cbn.
  - intros [H | []]. injection H as -> ->. right. auto.
  - destruct (key_eqb k k1) eqn:E; cbn.
    + intros [H | H].
      * injection H as -> ->. right. split; [reflexivity |]. right. auto.
      * left. right. exact H.
    + intros [H | H].
      * left. left. exact H.
      * destruct (IH H) as [Hd | (-> & [-> | [Hk Hin]])]; auto.
        right. split; [reflexivity |]. right. auto.
Qed.

Lemma pydict_store_nonempty (d : pydict) (k v : pyval) : pydict_store d k v <> [].
Proof.
  destruct d as [ | [k1 v1] d ]; cbn; [discriminate |].
  destruct (key_eqb k k1); discriminate.
Qed.

Lemma st_selectbox_In (options : list pyval) (picked : nat) :
  options <> [] -> In (st_selectbox options picked) options.
Proof.
  destruct options as [ | first rest ]; [congruence |]. intros _.
  unfold st_selectbox.
  destruct (Nat.ltb picked (length (first :: rest))) eqn:E.
  - apply nth_In. apply Nat.ltb_lt. exact E.
  - apply Nat.ltb_ge in E. rewrite (nth_overflow _ _ E). left. reflexivity.
Qed.

(** The keys of a comprehension are hashable, and there is at least one
    as soon as there is an item. *)
Lemma comprehension_loop_keys kf vf (items : list pyval) (acc d : pydict) :
  comprehension_loop kf vf items acc = Return d ->
  (forall k v, In (k, v) acc -> hashable k = true) ->
  (forall k v, In (k, v) d -> hashable k = true) /\
  (items <> [] \/ acc <> [] -> d <> []).
Proof.
  revert acc. induction items as [ | x rest IH ]; intros acc Hrun Hacc.
  - cbn in Hrun. injection Hrun as <-. split; [exact Hacc | tauto].
  - cbn [comprehension_loop] in Hrun.
    destruct (py_subscript x kf) as [k | ]; [| discriminate Hrun].
    destruct (py_subscript x vf) as [v | ]; [| discriminate Hrun].
    cbn [obind] in Hrun. unfold pydict_setitem in Hrun.
    destruct (hashable k) eqn:Hk; [| discriminate Hrun].
    cbn [obind] in Hrun.
    destruct (IH (pydict_store acc k v) Hrun) as [Hkeys Hne].
    + intros k0 v0 Hin.
      destruct (pydict_store_In acc k v k0 v0 Hin)
        as [Hold | (_ & [-> | [_ Hold]])].
      * exact (Hacc k0 v0 Hold).
      * exact Hk.
      * unfold pydict_keys in Hold. apply in_map_iff in Hold.
        destruct Hold as ([k1 v1] & <- & Hin1). exact (Hacc k1 v1 Hin1).
    + split; [exact Hkeys |]. intros _. apply Hne. right.
      apply pydict_store_nonempty.
Qed.

Lemma matching_name_some kf vf id (items : list pyval) v :
  matching_name kf vf id items = Some v ->
  exists x k, In x items /\ field kf x = Some k /\ key_eqb id k = true /\
              field vf x = Some v.
Proof.
  induction items as [ | x rest IH ]; cbn; [discriminate |].
  destruct (matching_name kf vf id rest) as [n | ].
  - intros H. destruct (IH H) as (y & k & Hin & Hrest). exists y, k. auto.
  - destruct (field kf x) as [k | ] eqn:Fk; [| discriminate].
    destruct (key_eqb id k) eqn:Hk; [| discriminate].
    intros Fv. exists x, k. auto.
Qed.

(** The cases of [record_profile], the last step of a row. *)
Lemma record_profile_cases (prof_lookup : pydict) (r : pyval) :
  (forall rd,
      r = PDict rd -> dict_lookup "profile" rd = None ->
      record_profile prof_lookup r
      = Return (match pydict_find prof_lookup (PStr "N/A") with
                | Some name => name
                | None => PStr "Unknown"
                end, PStr "N/A")) /\
  (forall profile,
      field "profile" r = Some profile ->
      (forall d, profile <> PDict d) ->
      record_profile prof_lookup r = Raise (Exception "AttributeError")) /\
  (forall pd pid,
      field "profile" r = Some (PDict pd) ->
      dict_lookup "id" pd = Some pid ->
      hashable pid = false ->
      record_profile prof_lookup r = Raise (Exception "TypeError")) /\
  ((forall rd, r <> PDict rd) ->
   record_profile prof_lookup r = Raise (Exception "AttributeError")).
Proof.
  split; [| split; [| split]].
  - intros rd -> Hnone. unfold record_profile. cbn [py_get]. rewrite Hnone.
    reflexivity.
  - intros profile Hfield Hshape. destruct r; try discriminate Hfield.
    cbn [field] in Hfield. unfold record_profile. cbn [py_get].
    rewrite Hfield. cbn [obind].
    destruct profile; try reflexivity. exfalso. eapply Hshape. reflexivity.
  - intros pd pid Hfield Hid Hhash. destruct r; try discriminate Hfield.
    cbn [field] in Hfield. unfold record_profile. cbn [py_get].
    rewrite Hfield. cbn [obind py_get]. rewrite Hid. cbn [obind].
    unfold pydict_get. rewrite Hhash. reflexivity.
  - intros Hshape. destruct r; try reflexivity.
    exfalso. eapply Hshape. reflexivity.
Qed.

(** X13: how a row of the DNS Records table fails or falls back.  For
    a record object with its [recordId], [hostname] and [address]: with
    no [profile] field the row is shown under the id ["N/A"]; with a
    [profile] that is there but is not an object (a null, a string) the
    row raises [AttributeError]; with an id that is a list or an object
    it raises [TypeError], as the id cannot be looked up.  A record
    that lacks one of the three fields raises [KeyError], and a record
    that is not an object raises [TypeError], both before any profile
    is resolved. *)
Theorem record_row_edges (prof_lookup : pydict) (r : pyval) :
  (forall rd recordId hostname address,
      r = PDict rd ->
      dict_lookup "recordId" rd = Some recordId ->
      dict_lookup "hostname" rd = Some hostname ->
      dict_lookup "address" rd = Some address ->
      (dict_lookup "profile" rd = None ->
       record_row prof_lookup r
       = Return (recordId, hostname, address,
                 (match pydict_find prof_lookup (PStr "N/A") with
                  | Some name => name
                  | None => PStr "Unknown"
                  end, PStr "N/A"))) /\
      (forall profile,
          dict_lookup "profile" rd = Some profile ->
          (forall d, profile <> PDict d) ->
          record_row prof_lookup r = Raise (Exception "AttributeError")) /\
      (forall pd pid,
          dict_lookup "profile" rd = Some (PDict pd) ->
          dict_lookup "id" pd = Some pid ->
          hashable pid = false ->
          record_row prof_lookup r = Raise (Exception "TypeError"))) /\
  (forall rd,
      r = PDict rd ->
      dict_lookup "recordId" rd = None \/ dict_lookup "hostname" rd = None \/
      dict_lookup "address" rd = None ->
      record_row prof_lookup r = Raise (Exception "KeyError")) /\
  ((forall rd, r <> PDict rd) ->
   record_row prof_lookup r = Raise (Exception "TypeError")).
Proof.
  split; [| split].
  - intros rd recordId hostname address -> Hid Hhost Haddr.
    destruct (record_profile_cases prof_lookup (PDict rd))
      as (Hnone & Hshape & Hhash & _).
    assert (Hrow : record_row prof_lookup (PDict rd)
                   = (let* profile := record_profile prof_lookup (PDict rd) in
                      Return (recordId, hostname, address, profile))).
    { unfold record_row, py_subscript. rewrite Hid, Hhost, Haddr. reflexivity. }
    rewrite Hrow. split; [| split].
    + intros Hp. rewrite (Hnone rd eq_refl Hp). reflexivity.
    + intros profile Hp Hs. rewrite (Hshape profile Hp Hs). reflexivity.
    + intros pd pid Hp Hpid Hh. rewrite (Hhash pd pid Hp Hpid Hh). reflexivity.
  - intros rd -> Hmissing. unfold record_row, py_subscript.
    destruct (dict_lookup "recordId" rd); [| reflexivity].
    destruct (dict_lookup "hostname" rd); [| reflexivity].
    destruct (dict_lookup "address" rd); [| reflexivity].
    destruct Hmissing as [H | [H | H]]; discriminate H.
  - intros Hshape. destruct r; try reflexivity.
    exfalso. eapply Hshape. reflexivity.
Qed.


Lemma has_fields_subscript f1 f2 x :
  has_fields f1 f2 x = true ->
  exists a b, py_subscript x f1 = Return a /\ py_subscript x f2 = Return b /\
              field f1 x = Some a /\ field f2 x = Some b.
Proof.
  unfold has_fields, field, py_subscript.
  destruct x as [ | | | | | d ]; try discriminate.
  destruct (dict_lookup f1 d) as [a | ]; [| discriminate].
  destruct (dict_lookup f2 d) as [b | ]; [| discriminate].
  intros _. exists a, b. repeat split.
Qed.

(** Every entry of a dropdown map stands for one of the entities it was
    built from. *)
Lemma display_map_loop_entries str nf idf (all items : list pyval) (acc : pydict) :
  forallb (has_fields nf idf) items = true ->
  (forall x, In x items -> In x all) ->
  (forall k v, In (k, v) acc -> stands_for str nf idf all k v) ->
  exists d,
    display_map_loop str nf idf items acc = Return d /\
    (forall k v, In (k, v) d -> stands_for str nf idf all k v) /\
    (items <> [] \/ acc <> [] -> d <> []).
Proof.
  revert acc. induction items as [ | x rest IH ]; intros acc Hwf Hsub Hacc.
  - exists acc. split; [reflexivity | split; [exact Hacc | tauto]].
  - cbn [forallb] in Hwf. apply Bool.andb_true_iff in Hwf as [Hx Hrest].
    destruct (has_fields_subscript nf idf x Hx) as (name & id & Sn & Si & Fn & Fi).
    destruct (IH (pydict_store acc (display str name id) id) Hrest) as (d & Hd & Hent & Hne).
    + intros y Hy. apply Hsub. right. exact Hy.
    + intros k0 v0 Hin.
      destruct (pydict_store_In _ _ _ _ _ Hin) as [Hold | (-> & Hnew)].
      * exact (Hacc k0 v0 Hold).
      * assert (Hk0 : k0 = display str name id).
        { destruct Hnew as [-> | [Hk _]]; [reflexivity |].
          unfold display in *. apply key_eqb_str in Hk. exact Hk. }
        subst k0. exists x, name. repeat split; try assumption.
        apply Hsub. left. reflexivity.
    + exists d. split; [| split; [exact Hent |]].
      * cbn [display_map_loop]. rewrite Sn, Si. cbn [obind]. exact Hd.
      * intros _. apply Hne. right. apply pydict_store_nonempty.
Qed.

(** X15: the profile dropdown of a new DNS record never offers an entry
    it cannot resolve.  With at least one fetched profile, each with a
    name and a profileId, whatever entry is picked reads [name (id)] for
    one of the fetched profiles and the id handed on is the profileId of
    that profile; no [KeyError] is raised. *)
Theorem dropdown_entry_resolves
    (str : pyval -> string) (profiles : list pyval) (picked : nat) :
  profiles <> [] ->
  forallb (has_fields "name" "profileId") profiles = true ->
  exists selected profile_id,
    new_prof_select str (PList profiles) picked = Return (selected, profile_id) /\
    stands_for str "name" "profileId" profiles selected profile_id.
Proof.
  intros Hne Hwf.
  destruct (display_map_loop_entries str "name" "profileId" profiles profiles []
              Hwf (fun x H => H)) as (p_map & Hmap & Hent & Hnonempty).
  { intros k v []. }
  assert (Hkeys : pydict_keys p_map <> []).
  { unfold pydict_keys. intros Hnil. apply map_eq_nil in Hnil.
    apply Hnonempty; [left; exact Hne | exact Hnil]. }
  pose proof (st_selectbox_In (pydict_keys p_map) picked Hkeys) as Hsel.
  unfold pydict_keys in Hsel. apply in_map_iff in Hsel.
  destruct Hsel as ([k v] & Hk & Hin). cbn [fst] in Hk.
  destruct (Hent k v Hin) as (x & name & _ & _ & _ & Hdisp).
  assert (Hhash : hashable k = true) by (rewrite Hdisp; reflexivity).
  destruct (pydict_find p_map k) as [v' | ] eqn:Hfind.
  - exists k, v'. split.
    + unfold new_prof_select, display_map. cbn [py_iter obind].
      rewrite Hmap. cbn [obind]. fold (pydict_keys p_map) in Hk.
      rewrite <- Hk. unfold pydict_getitem. rewrite Hhash, Hfind. reflexivity.
    + destruct (pydict_find_In p_map k v' Hfind) as (k' & Hin' & Heq).
      rewrite Hdisp in Heq. unfold display in Heq. apply key_eqb_str in Heq.
      fold (display str name v) in Heq. rewrite <- Hdisp in Heq. subst k'.
      exact (Hent k v' Hin').
  - exfalso. apply (pydict_find_key p_map k v Hin (key_eqb_refl k Hhash)).
    exact Hfind.
Qed.

Section ScopeFacts.

Variable W : Type.
Variable remote : string -> list pyval -> W -> outcome pyval * W.

(** X16: the scope of the page.  When [get_organizations] returns no
    organization, picking the scope raises [KeyError]: the dropdown
    yields [None] and the map has no such name.  When it returns
    organizations, each with a hashable name and an id, the scope is the
    id of one of them, the one whose name was picked.  When it raises,
    the exception passes through. *)
Theorem select_org_result (picked : nat) (s : state W) :
  (forall orgs,
      fst (get_organizations remote s) = Return (PList orgs) ->
      forallb (keyed_entity "name" "id") orgs = true ->
      (orgs = [] ->
       fst (select_org remote picked s) = Raise (Exception "KeyError")) /\
      (orgs <> [] ->
       exists org_id o name,
         fst (select_org remote picked s) = Return org_id /\
         In o orgs /\ field "id" o = Some org_id /\
         field "name" o = Some name)) /\
  (forall x,
      fst (get_organizations remote s) = Raise x ->
      fst (select_org remote picked s) = Raise x).
Proof.
  split.
  - intros orgs Horgs Hwf.
    assert (Hrun :
      fst (select_org remote picked s)
      = (let* org_map := dict_comprehension "name" "id" (PList orgs) in
         pydict_getitem org_map (st_selectbox (pydict_keys org_map) picked))).
    { unfold select_org, bind, lift.
      destruct (get_organizations remote s) as [o s1]. cbn [fst] in Horgs.
      subst o.
      destruct (dict_comprehension "name" "id" (PList orgs)); reflexivity. }
    rewrite Hrun. split.
    + intros ->. reflexivity.
    + intros Hne.
      destruct (comprehension_loop_finds "name" "id" orgs [] Hwf)
        as (org_map & Hmap & Hfind).
      destruct (comprehension_loop_keys "name" "id" orgs [] org_map Hmap)
        as [Hhash Hnonempty]; [intros k v [] |].
      assert (Hkeys : pydict_keys org_map <> []).
      { unfold pydict_keys. intros Hnil. apply map_eq_nil in Hnil.
        apply Hnonempty; [left; exact Hne | exact Hnil]. }
      pose proof (st_selectbox_In (pydict_keys org_map) picked Hkeys) as Hsel.
      unfold pydict_keys in Hsel. apply in_map_iff in Hsel.
      destruct Hsel as ([k v] & Hk & Hin). cbn [fst] in Hk.
      fold (pydict_keys org_map) in Hk.
      pose proof (Hhash k v Hin) as Hkhash.
      destruct (pydict_find org_map k) as [org_id | ] eqn:Efind.
      * pose proof (Hfind k) as Hm. rewrite Efind in Hm. cbn [pydict_find] in Hm.
        destruct (matching_name "name" "id" k orgs) as [n | ] eqn:Em;
          [| discriminate Hm].
        injection Hm as ->.
        destruct (matching_name_some _ _ _ _ _ Em) as (x & name & Hx & Fn & _ & Fi).
        exists n, x, name. split; [| auto].
        unfold dict_comprehension. cbn [py_iter obind].
        rewrite Hmap. cbn [obind]. rewrite <- Hk.
        unfold pydict_getitem. rewrite Hkhash, Efind. reflexivity.
      * exfalso. apply (pydict_find_key org_map k v Hin (key_eqb_refl k Hkhash)).
        exact Efind.
  - intros x Hraise. unfold select_org. unfold bind at 1.
    destruct (get_organizations remote s) as [o s1]. cbn [fst] in Hraise.
    subst o. reflexivity.
Qed.

End ScopeFacts.

(** ** Reading files for the dialogs *)

(** X17: [get_file_content] with a number of lines.  On a readable
    file, [n > 0] gives the list of the last [n] lines, all of them when
    the file has fewer, in their order; [n < 0] gives the list of the
    lines that follow the first [-n], none when the file has no more.
    A list comes back exactly when the file is readable and the number
    is given and is not zero: a missing or unreadable file, no number
    and the number zero all give one string. *)
Theorem get_file_content_last_lines
    (fs : string -> file) (file_path : string) :
  (forall lines n,
      fs file_path = TextFile lines -> 0 < n ->
      exists front tail,
        get_file_content fs file_path (Some n) = PList (map PStr tail) /\
        lines = front ++ tail /\
        length tail = Nat.min (Z.to_nat n) (length lines)) /\
  (forall lines n,
      fs file_path = TextFile lines -> n < 0 ->
      get_file_content fs file_path (Some n)
      = PList (map PStr (skipn (Z.to_nat (- n)) lines))) /\
  (forall last_n_lines,
      (exists xs, get_file_content fs file_path last_n_lines = PList xs) <->
      (exists lines n,
          fs file_path = TextFile lines /\ last_n_lines = Some n /\ n <> 0)).
Proof.
  split; [| split].
  - intros lines n Hfile Hn. unfold get_file_content. rewrite Hfile.
    assert (Hnz : (n =? 0) = false) by (apply Z.eqb_neq; lia).
    rewrite Hnz. cbn [negb]. unfold slice_from.
    assert (Hneg : (- n <? 0) = true) by (apply Z.ltb_lt; lia).
    rewrite Hneg.
    set (i := Z.to_nat (Z.max 0 (- n + Z.of_nat (length lines)))).
    exists (firstn i lines), (skipn i lines).
    split; [reflexivity | split].
    + symmetry. apply firstn_skipn.
    + rewrite length_skipn. unfold i. lia.
  - intros lines n Hfile Hn. unfold get_file_content. rewrite Hfile.
    assert (Hnz : (n =? 0) = false) by (apply Z.eqb_neq; lia).
    rewrite Hnz. cbn [negb]. unfold slice_from.
    assert (Hpos : (- n <? 0) = false) by (apply Z.ltb_ge; lia).
    rewrite Hpos.
    destruct (Z.le_ge_cases (- n) (Z.of_nat (length lines))) as [Hle | Hge].
    + rewrite Z.min_l by exact Hle. reflexivity.
    + rewrite Z.min_r by exact Hge. rewrite Nat2Z.id.
      rewrite skipn_all. rewrite skipn_all2 by lia. reflexivity.
  - intros last_n_lines. split.
    + intros [xs Hres]. unfold get_file_content in Hres.
      destruct (fs file_path) as [ | lines | str_e ]; try discriminate Hres.
      destruct last_n_lines as [n | ]; [| discriminate Hres].
      destruct (n =? 0) eqn:Hn; [discriminate Hres |].
      exists lines, n. repeat split. apply Z.eqb_neq. exact Hn.
    + intros (lines & n & Hfile & -> & Hn). unfold get_file_content.
      rewrite Hfile. apply Z.eqb_neq in Hn. rewrite Hn. cbn [negb].
      eexists. reflexivity.
Qed.

(** ** Instances of the further properties *)

(** X2 after a create, an assignment and a delete. *)
Lemma mutations_leave_cache_alone_witness :
  let rs := [(10, CreateProfile org_one (PStr "Eng"));
             (20, AssignProfile org_one (PStr "N_1") (PStr "p1"));
             (30, DeleteProfile org_one (PStr "p1"))] in
  let s' := perform_all counting_stub rs networks_cached in
  cache s' = cache networks_cached /\
  get_networks counting_stub org_one (with_clock 40 s')
  = (Return (PList [PInt 0]), with_clock 40 s').
Proof.
  cbv zeta.
  apply (mutations_leave_cache_alone nat counting_stub
           [(10, CreateProfile org_one (PStr "Eng"));
            (20, AssignProfile org_one (PStr "N_1") (PStr "p1"));
            (30, DeleteProfile org_one (PStr "p1"))]
           org_one 40
           (mkEntry "ProjectLogic.get_networks" [org_one] (PList [PInt 0]) 0)
           networks_cached eq_refl eq_refl).
  cbn. lia.
Defined.

(** X3 at a service that dies of a connection error. *)
Lemma other_exceptions_propagate_witness :
  fst (list_profiles (crashing_stub "ConnectionError") org_one (init_state tt))
  = Raise (Exception "ConnectionError") /\
  log (snd (list_profiles (crashing_stub "ConnectionError") org_one
              (init_state tt)))
  = [INFO_api_call 1 "appliance.getOrganizationApplianceDnsLocalProfiles"].
Proof.
  apply (other_exceptions_propagate unit (crashing_stub "ConnectionError")
           (ListProfiles org_one) (init_state tt) "ConnectionError"
           eq_refl eq_refl).
Defined.

(** X4 at a service that answers nothing. *)
Lemma list_X_needs_an_envelope_witness :
  fst (list_assignments (constant_stub PNone) org_one (init_state tt))
  = Raise (Exception "AttributeError").
Proof.
  apply (list_X_needs_an_envelope unit (constant_stub PNone)
           (ListAssignments org_one) (init_state tt) PNone eq_refl eq_refl).
  intros d H. discriminate H.
Defined.

(** X5 at a delete that is refused. *)
Lemma log_of_a_call_witness :
  log (snd (delete_dns_record (failing_stub "404 Not Found") org_one
              (PStr "r1") (init_state tt)))
  = [INFO_api_call 1 "appliance.deleteOrganizationApplianceDnsLocalRecord";
     ERROR_sdk "delete_dns_record" "404 Not Found"].
Proof.
  apply (log_of_a_call unit (failing_stub "404 Not Found")
           (DeleteDnsRecord org_one (PStr "r1")) (init_state tt) eq_refl).
Defined.

(** X7 at a second call one second after a refused first one. *)
Lemma failed_fetch_is_retried_witness :
  let first := get_organizations (failing_stub "401 Unauthorized")
                 (with_clock 0 (init_state tt)) in
  let second := get_organizations (failing_stub "401 Unauthorized")
                  (with_clock 1 (snd first)) in
  fst first = Raise (APIError "401 Unauthorized") /\
  cache (snd first) = [] /\
  sent (snd second) = [("organizations.getOrganizations", []);
                       ("organizations.getOrganizations", [])] /\
  fst second = Raise (APIError "401 Unauthorized").
Proof.
  cbv zeta.
  apply (failed_fetch_is_retried unit (failing_stub "401 Unauthorized")
           (init_state tt) 0 1 (APIError "401 Unauthorized")).
  - intros e H. discriminate H.
  - lia.
  - reflexivity.
Defined.

(** X8 at a refused delete and a refused create. *)
Lemma handlers_show_the_transport_error_witness :
  ui (snd (del_prof (failing_stub "404 Not Found") org_one eng_profile
             (init_state tt)))
  = [Toast (ToastError (PStr "404 Not Found"))] /\
  ui (snd (add_prof_btn (failing_stub "404 Not Found") org_one (PStr "Eng")
             (init_state tt)))
  = [Toast (ToastError (PStr "404 Not Found"))].
Proof.
  pose proof (handlers_show_the_transport_error unit
                (failing_stub "404 Not Found") org_one eng_profile (PStr "p1")
                (PStr "Eng") "404 Not Found" (init_state tt) eq_refl eq_refl)
    as [Hdel Hadd].
  split.
  - apply (proj2 (Hdel eq_refl)).
  - apply (proj2 (Hadd eq_refl)).
Defined.

(** X9 at an empty name. *)
Lemma add_prof_btn_calls_iff_named_witness :
  sent (snd (add_prof_btn (constant_stub eng_profile) org_one (PStr "")
               (init_state tt))) = [] /\
  ui (snd (add_prof_btn (constant_stub eng_profile) org_one (PStr "")
             (init_state tt))) = [Toast ToastEnterProfileName].
Proof.
  pose proof (add_prof_btn_calls_iff_named unit (constant_stub eng_profile)
                org_one (PStr "") (init_state tt)) as T.
  cbv zeta in T. destruct T as (Hsent & _ & _ & Hrest).
  split.
  - exact Hsent.
  - apply (proj2 (proj2 (Hrest eq_refl))).
Defined.

(** X10 at a reply that carries an [error] field without raising. *)
Lemma add_prof_btn_on_object_reply_witness :
  ui (snd (add_prof_btn (constant_stub (PDict [("error", PStr "quota")]))
             org_one (PStr "Eng") (init_state tt)))
  = [Toast (ToastError (PStr "quota"))] /\
  ui (snd (add_prof_btn (constant_stub eng_profile) org_one (PStr "Eng")
             (init_state tt)))
  = [Toast (ToastProfileCreated (PStr "Eng"));
     SessionStateDel "new_prof_name"; Sleep 1; Rerun].
Proof.
  split.
  - apply (proj2 (add_prof_btn_on_object_reply unit
                    (constant_stub (PDict [("error", PStr "quota")]))
                    org_one (PStr "Eng") [("error", PStr "quota")]
                    (init_state tt) eq_refl eq_refl)).
  - apply (proj2 (add_prof_btn_on_object_reply unit
                    (constant_stub eng_profile)
                    org_one (PStr "Eng")
                    [("profileId", PStr "p1"); ("name", PStr "Eng")]
                    (init_state tt) eq_refl eq_refl)).
Defined.

(** X11 at a service that answers a create with nothing. *)
Lemma add_prof_btn_crashes_on_null_reply_witness :
  fst (add_prof_btn (constant_stub PNone) org_one (PStr "Eng") (init_state tt))
  = Raise (Exception "AttributeError") /\
  ui (snd (add_prof_btn (constant_stub PNone) org_one (PStr "Eng")
             (init_state tt))) = [] /\
  sent (snd (add_prof_btn (constant_stub PNone) org_one (PStr "Eng")
               (init_state tt)))
  = [("appliance.createOrganizationApplianceDnsLocalProfile",
      [org_one; PStr "Eng"])].
Proof.
  apply (add_prof_btn_crashes_on_null_reply unit (constant_stub PNone)
           org_one (PStr "Eng") PNone (init_state tt)
           eq_refl eq_refl eq_refl).
  intros d H. discriminate H.
Defined.

(** X12 at an envelope reply and at the reply [True]. *)
Lemma del_prof_on_reply_witness :
  ui (snd (del_prof (constant_stub (PDict [("items", PList [])])) org_one
             eng_profile (init_state tt)))
  = [Toast ToastProfileDeleted; Sleep 1; Rerun] /\
  fst (del_prof (constant_stub (PBool true)) org_one eng_profile (init_state tt))
  = Raise (Exception "TypeError").
Proof.
  split.
  - apply (proj2 (proj1 (del_prof_on_reply unit
                           (constant_stub (PDict [("items", PList [])]))
                           org_one eng_profile (PStr "p1")
                           (PDict [("items", PList [])]) (init_state tt)
                           eq_refl eq_refl)
                    [("items", PList [])] eq_refl)).
  - apply (proj1 (proj2 (del_prof_on_reply unit (constant_stub (PBool true))
                           org_one eng_profile (PStr "p1") (PBool true)
                           (init_state tt) eq_refl eq_refl)
                    (or_introl eq_refl))).
Defined.

(** X13 at a record without a profile, one whose profile is null, one
    without an address and a null in place of a record. *)
Lemma record_row_edges_witness :
  record_row [(PStr "p1", PStr "Eng")]
    (PDict [("recordId", PStr "r1"); ("hostname", PStr "db.local");
            ("address", PStr "10.0.0.5")])
  = Return (PStr "r1", PStr "db.local", PStr "10.0.0.5",
            (PStr "Unknown", PStr "N/A")) /\
  record_row [(PStr "p1", PStr "Eng")]
    (PDict [("recordId", PStr "r1"); ("hostname", PStr "db.local");
            ("address", PStr "10.0.0.5"); ("profile", PNone)])
  = Raise (Exception "AttributeError") /\
  record_row [(PStr "p1", PStr "Eng")]
    (PDict [("recordId", PStr "r1"); ("hostname", PStr "db.local")])
  = Raise (Exception "KeyError") /\
  record_row [(PStr "p1", PStr "Eng")] PNone = Raise (Exception "TypeError").
Proof.
  split; [| split; [| split]].
  - apply (proj1 (proj1 (record_row_edges [(PStr "p1", PStr "Eng")] _)
                    [("recordId", PStr "r1"); ("hostname", PStr "db.local");
                     ("address", PStr "10.0.0.5")]
                    (PStr "r1") (PStr "db.local") (PStr "10.0.0.5")
                    eq_refl eq_refl eq_refl eq_refl) eq_refl).
  - apply (proj1 (proj2 (proj1 (record_row_edges [(PStr "p1", PStr "Eng")] _)
                    [("recordId", PStr "r1"); ("hostname", PStr "db.local");
                     ("address", PStr "10.0.0.5"); ("profile", PNone)]
                    (PStr "r1") (PStr "db.local") (PStr "10.0.0.5")
                    eq_refl eq_refl eq_refl eq_refl)) PNone eq_refl).
    intros d H. discriminate H.
  - apply (proj1 (proj2 (record_row_edges [(PStr "p1", PStr "Eng")] _))
             [("recordId", PStr "r1"); ("hostname", PStr "db.local")] eq_refl).
    right. right. reflexivity.
  - apply (proj2 (proj2 (record_row_edges [(PStr "p1", PStr "Eng")] PNone))).
    intros rd H. discriminate H.
Defined.


(** X15 at one fetched profile. *)
Lemma dropdown_entry_resolves_witness :
  exists selected profile_id,
    new_prof_select sample_str (PList [eng_profile]) 0 = Return (selected, profile_id) /\
    stands_for sample_str "name" "profileId" [eng_profile] selected profile_id.
Proof.
  apply (dropdown_entry_resolves sample_str [eng_profile] 0%nat).
  - discriminate.
  - reflexivity.
Defined.

(** X16 at no organization and at one. *)
Lemma select_org_result_witness :
  fst (select_org (constant_stub (PList [])) 0 (init_state tt))
  = Raise (Exception "KeyError") /\
  exists org_id o name,
    fst (select_org (constant_stub (PList [acme_org])) 0 (init_state tt))
    = Return org_id /\
    In o [acme_org] /\ field "id" o = Some org_id /\ field "name" o = Some name.
Proof.
  split.
  - apply (proj1 (proj1 (select_org_result unit (constant_stub (PList []))
                           0%nat (init_state tt))
                    [] eq_refl eq_refl) eq_refl).
  - apply (proj2 (proj1 (select_org_result unit
                           (constant_stub (PList [acme_org]))
                           0%nat (init_state tt))
                    [acme_org] eq_refl eq_refl)).
    discriminate.
Defined.

(** X17 at a log of three lines, asked for two. *)
Lemma get_file_content_last_lines_witness :
  exists front tail,
    get_file_content sample_fs "app.log" (Some 2) = PList (map PStr tail) /\
    ["one"; "two"; "three"] = front ++ tail /\
    length tail = Nat.min (Z.to_nat 2) (length ["one"; "two"; "three"]).
Proof.
  apply (proj1 (get_file_content_last_lines sample_fs "app.log")
           ["one"; "two"; "three"] 2 eq_refl).
  lia.
Defined.
